(** * FlexLayout: the layouter of one flex container

    A shallow embedding of [src/flex/layout/FlexLayout.mjs].  The class is a
    bundle of mutable fields driven by methods that call four collaborators
    (the line layouter, the content aligner, the item coordinates updater and
    the layout target); it is embedded as a record for the object graph
    reachable from [this], a state monad for the methods, and a type class for
    the collaborators whose sources are elsewhere.

    Sizes are JavaScript numbers holding pixel counts; they are embedded as
    [Z], with [!==] on them as the negation of [Z.eqb]. *)

From Stdlib Require Import ZArith List Bool Lia.
From ExtLib Require Import Structures.Monad Structures.MonadState.
From ExtLib Require Import Data.Monads.StateMonad.
Import ListNotations.
Import MonadNotation.
Local Open Scope Z_scope.
Local Open Scope monad_scope.

(** ** Data model *)

(** Modelled from the spec: the layout target behind [this.item], whose
    class is not among the sources, with the fields the layouter and
    [FlexUtils] reach: the configured size per physical axis, the resolved
    layout size and position, the enclosing flex target (a non-owning
    reference, kept as an identifier), the mark that a deferred layout has
    to be redone, and the owned children. *)
#[warnings="-register-all"]
Inductive FlexTarget : Type := mkFlexTarget {
  flexParent : option nat;
  axisW : Z;
  axisH : Z;
  layoutW : Z;
  layoutH : Z;
  layoutX : Z;
  layoutY : Z;
  updateDeferred : bool;
  items : list FlexTarget
}.

(** Modelled from the spec: one line of [LineLayouter.mjs], which is not
    among the sources: indices into [items] (items are owned by the
    container), each with its offset on the main axis, and the line's sizes
    and position. *)
Record FlexLine : Type := mkFlexLine {
  lineItems : list (nat * Z);
  lineMainAxisSize : Z;
  lineCrossAxisSize : Z;
  lineCrossAxisPos : Z
}.

(** Modelled from the spec: [this._lineLayouter], of a class that is not
    among the sources, with the properties the layouter reads. *)
Record LineLayouter : Type := mkLineLayouter {
  lines : list FlexLine;
  mainAxisContentSize : Z;
  mainAxisMinSize : Z;
  crossAxisMinSize : Z
}.

(** Modelled from the spec: [new ContentAligner(this)], of a class that is
    not among the sources, with the property the layouter reads after
    [init()]. *)
Record ContentAligner : Type := mkContentAligner {
  totalCrossAxisSize : Z
}.

(** [this._flexContainer], as far as the layouter reads it. *)
Module FlexContainer.
Record t : Type := mk {
  item : FlexTarget;
  wrap : bool;
  _horizontal : bool;
  _reverse : bool
}.
End FlexContainer.

(** The instance fields of [FlexLayout].  [_totalCrossAxisSize] is assigned
    in [_layoutCrossAxis] before its only read, so it is a number here. *)
Record FlexLayout : Type := mkFlexLayout {
  _flexContainer : FlexContainer.t;
  _lineLayouter : LineLayouter;
  _resizingMainAxis : bool;
  _resizingCrossAxis : bool;
  _deferLayout : bool;
  _totalCrossAxisSize : Z
}.

(** [constructor(flexContainer)]; the line layouter starts without lines. *)
Definition constructor (flexContainer : FlexContainer.t) : FlexLayout :=
  mkFlexLayout flexContainer (mkLineLayouter [] 0 0 0) false false false 0.

(** Field updates. *)
Definition with_layoutW (v : Z) (i : FlexTarget) : FlexTarget :=
  mkFlexTarget (flexParent i) (axisW i) (axisH i) v (layoutH i)
               (layoutX i) (layoutY i) (updateDeferred i) (items i).

Definition with_layoutH (v : Z) (i : FlexTarget) : FlexTarget :=
  mkFlexTarget (flexParent i) (axisW i) (axisH i) (layoutW i) v
               (layoutX i) (layoutY i) (updateDeferred i) (items i).

Definition with_item (i : FlexTarget) (l : FlexLayout) : FlexLayout :=
  let c := _flexContainer l in
  mkFlexLayout
    (FlexContainer.mk i (FlexContainer.wrap c) (FlexContainer._horizontal c)
                      (FlexContainer._reverse c))
    (_lineLayouter l) (_resizingMainAxis l) (_resizingCrossAxis l)
    (_deferLayout l) (_totalCrossAxisSize l).

Definition with_resizingMainAxis (b : bool) (l : FlexLayout) : FlexLayout :=
  mkFlexLayout (_flexContainer l) (_lineLayouter l) b (_resizingCrossAxis l)
               (_deferLayout l) (_totalCrossAxisSize l).

Definition with_resizingCrossAxis (b : bool) (l : FlexLayout) : FlexLayout :=
  mkFlexLayout (_flexContainer l) (_lineLayouter l) (_resizingMainAxis l) b
               (_deferLayout l) (_totalCrossAxisSize l).

Definition with_deferLayout (b : bool) (l : FlexLayout) : FlexLayout :=
  mkFlexLayout (_flexContainer l) (_lineLayouter l) (_resizingMainAxis l)
               (_resizingCrossAxis l) b (_totalCrossAxisSize l).

Definition with_totalCrossAxisSize (v : Z) (l : FlexLayout) : FlexLayout :=
  mkFlexLayout (_flexContainer l) (_lineLayouter l) (_resizingMainAxis l)
               (_resizingCrossAxis l) (_deferLayout l) v.

Definition with_lineLayouter (ll : LineLayouter) (l : FlexLayout) : FlexLayout :=
  mkFlexLayout (_flexContainer l) ll (_resizingMainAxis l)
               (_resizingCrossAxis l) (_deferLayout l) (_totalCrossAxisSize l).

(** ** FlexUtils *)

Module FlexUtils.

(** Modelled from the spec: [FlexUtils.getAxisSize] is imported from
    [../FlexUtils.mjs], which is not among the sources; the axis utility
    returns the configured basis size of the item along the physical axis
    selected by [horizontal]. *)
Definition getAxisSize (item : FlexTarget) (horizontal : bool) : Z :=
  if horizontal then axisW item else axisH item.

(** Modelled from the spec: [FlexUtils.getAxisLayoutSize] is not among the
    sources; it is the getter of the resolved layout size along the axis. *)
Definition getAxisLayoutSize (item : FlexTarget) (horizontal : bool) : Z :=
  if horizontal then layoutW item else layoutH item.

(** Modelled from the spec: [FlexUtils.setAxisLayoutSize] is not among the
    sources; it is the setter of the resolved layout size along the axis,
    with no effect besides the assignment. *)
Definition setAxisLayoutSize (item : FlexTarget) (horizontal : bool)
           (size : Z) : FlexTarget :=
  if horizontal then with_layoutW size item else with_layoutH size item.

End FlexUtils.

(** ** Collaborators

    The methods of other classes that [FlexLayout] invokes.  Each one may
    rewrite anything reachable from the object it is invoked on. *)
Class Collaborators : Type := {
  (** [this._lineLayouter.layoutLines()] *)
  layoutLines : FlexLayout -> FlexLayout;
  (** [aligner = new ContentAligner(this); aligner.init()] *)
  alignerInit : FlexLayout -> ContentAligner * FlexLayout;
  (** [aligner.align()] *)
  alignerAlign : ContentAligner -> FlexLayout -> FlexLayout;
  (** [new ItemCoordinatesUpdater(this).finalize()] *)
  finalize : FlexLayout -> FlexLayout;
  (** [item.resetNonFlexLayout()] *)
  resetNonFlexLayout : FlexTarget -> FlexTarget;
  (** [item.mustUpdateDeferred()] *)
  mustUpdateDeferred : FlexTarget -> FlexTarget
}.

(** ** The method monad

    A method runs on [this] and, as ghost state that no method reads, on the
    log of the collaborator calls made so far, each with the object it was
    invoked on. *)
Inductive Call : Type :=
| CallLayoutLines
| CallAlignerInit
| CallAlignerAlign
| CallFinalize
| CallResetNonFlexLayout
| CallMustUpdateDeferred.

Definition Event : Type := (Call * FlexLayout)%type.

Record Run : Type := mkRun {
  this : FlexLayout;
  log : list Event
}.

Definition M : Type -> Type := state Run.

Definition getThis : M FlexLayout :=
  r <- get ;; ret (this r).

Definition update (f : FlexLayout -> FlexLayout) : M unit :=
  r <- get ;; put (mkRun (f (this r)) (log r)).

Definition call (c : Call) (f : FlexLayout -> FlexLayout) : M unit :=
  r <- get ;; put (mkRun (f (this r)) (log r ++ [(c, this r)])).

Definition callInit {C : Collaborators} : M ContentAligner :=
  r <- get ;;
  let '(aligner, l') := alignerInit (this r) in
  put (mkRun l' (log r ++ [(CallAlignerInit, this r)])) ;;
  ret aligner.

Definition skip : M unit := ret tt.

Definition start (l : FlexLayout) : Run := mkRun l [].

(** The object and the log a method leaves, and the value it returns. *)
Definition exec {A : Type} (m : M A) (r : Run) : Run := snd (runState m r).
Definition result {A : Type} (m : M A) (r : Run) : A := fst (runState m r).

Definition calls (r : Run) : list Call := map fst (log r).

(** ** Getters of [FlexLayout] *)

Definition item (l : FlexLayout) : FlexTarget :=
  FlexContainer.item (_flexContainer l).

Definition _horizontal (l : FlexLayout) : bool :=
  FlexContainer._horizontal (_flexContainer l).

Definition _reverse (l : FlexLayout) : bool :=
  FlexContainer._reverse (_flexContainer l).

Definition resizingMainAxis (l : FlexLayout) : bool := _resizingMainAxis l.

Definition resizingCrossAxis (l : FlexLayout) : bool := _resizingCrossAxis l.

Definition isLayoutDeferred (l : FlexLayout) : bool := _deferLayout l.

Definition isWrapping (l : FlexLayout) : bool :=
  FlexContainer.wrap (_flexContainer l).

Definition _getMainAxisBasis (l : FlexLayout) : Z :=
  FlexUtils.getAxisSize (item l) (_horizontal l).

Definition _getCrossAxisBasis (l : FlexLayout) : Z :=
  FlexUtils.getAxisSize (item l) (negb (_horizontal l)).

Definition _hasFixedMainAxisBasis (l : FlexLayout) : bool :=
  negb (_getMainAxisBasis l =? 0).

Definition _hasFixedCrossAxisBasis (l : FlexLayout) : bool :=
  negb (_getCrossAxisBasis l =? 0).

Definition isMainAxisFitToContents (l : FlexLayout) : bool :=
  negb (isWrapping l) && negb (_hasFixedMainAxisBasis l).

Definition isCrossAxisFitToContents (l : FlexLayout) : bool :=
  negb (_hasFixedCrossAxisBasis l).

Definition mainAxisSize (l : FlexLayout) : Z :=
  FlexUtils.getAxisLayoutSize (item l) (_horizontal l).

Definition crossAxisSize (l : FlexLayout) : Z :=
  FlexUtils.getAxisLayoutSize (item l) (negb (_horizontal l)).

(** [set mainAxisSize(v)]: the item is mutated in place, so [this] is the
    same object around the updated item. *)
Definition mainAxisSize_set (v : Z) (l : FlexLayout) : FlexLayout :=
  with_item (FlexUtils.setAxisLayoutSize (item l) (_horizontal l) v) l.

(** [set crossAxisSize(v)] *)
Definition crossAxisSize_set (v : Z) (l : FlexLayout) : FlexLayout :=
  with_item (FlexUtils.setAxisLayoutSize (item l) (negb (_horizontal l)) v) l.

(** ** Methods of [FlexLayout] *)

Section Methods.

Context {C : Collaborators}.

(** [this.mainAxisSize = v] *)
Definition set_mainAxisSize (v : Z) : M unit :=
  update (mainAxisSize_set v).

(** [this.crossAxisSize = v] *)
Definition set_crossAxisSize (v : Z) : M unit :=
  update (crossAxisSize_set v).

Definition resetDeferredLayout : M unit :=
  update (with_deferLayout false).

Definition _setInitialAxisSizes : M unit :=
  l <- getThis ;;
  set_mainAxisSize (_getMainAxisBasis l) ;;
  l <- getThis ;;
  set_crossAxisSize (_getCrossAxisBasis l) ;;
  update (with_resizingMainAxis false) ;;
  update (with_resizingCrossAxis false).

Definition _layoutLines : M unit :=
  call CallLayoutLines layoutLines.

Definition _fitMainAxisSizeToContents : M unit :=
  l <- getThis ;;
  if negb (_resizingMainAxis l) then
    if isMainAxisFitToContents l then
      set_mainAxisSize (mainAxisContentSize (_lineLayouter l))
    else skip
  else skip.

Definition _layoutMainAxis : M unit :=
  _layoutLines ;;
  _fitMainAxisSizeToContents.

Definition _fitCrossAxisSizeToContents : M unit :=
  l <- getThis ;;
  if negb (_resizingCrossAxis l) then
    if isCrossAxisFitToContents l then
      set_crossAxisSize (_totalCrossAxisSize l)
    else skip
  else skip.

Definition _layoutCrossAxis : M unit :=
  aligner <- callInit ;;
  update (with_totalCrossAxisSize (totalCrossAxisSize aligner)) ;;
  _fitCrossAxisSizeToContents ;;
  call CallAlignerAlign (alignerAlign aligner).

Definition _layoutAxes : M unit :=
  _layoutMainAxis ;;
  _layoutCrossAxis.

Definition updateTreeLayout : M unit :=
  resetDeferredLayout ;;
  _setInitialAxisSizes ;;
  _layoutAxes.

Definition updateItemCoords : M unit :=
  call CallFinalize finalize.

Definition _updateTreeLayoutWithCurrentAxes : M unit :=
  resetDeferredLayout ;;
  _layoutAxes.

Definition layoutTree : M unit :=
  l <- getThis ;;
  let isSubTree := flexParent (item l) in
  match isSubTree with
  | Some _ => _updateTreeLayoutWithCurrentAxes
  | None => updateTreeLayout
  end ;;
  updateItemCoords.

Definition deferLayout : M unit :=
  update (with_deferLayout true) ;;
  call CallResetNonFlexLayout
       (fun l => with_item (resetNonFlexLayout (item l)) l) ;;
  call CallMustUpdateDeferred
       (fun l => with_item (mustUpdateDeferred (item l)) l).

Definition _getMainAxisMinSize : M Z :=
  l <- getThis ;;
  (if isLayoutDeferred l then updateTreeLayout else skip) ;;
  l <- getThis ;;
  ret (mainAxisMinSize (_lineLayouter l)).

Definition _getCrossAxisMinSize : M Z :=
  l <- getThis ;;
  (if isLayoutDeferred l then updateTreeLayout else skip) ;;
  l <- getThis ;;
  ret (crossAxisMinSize (_lineLayouter l)).

Definition getAxisMinSize (horizontal : bool) : M Z :=
  l <- getThis ;;
  if Bool.eqb (_horizontal l) horizontal then _getMainAxisMinSize
  else _getCrossAxisMinSize.

Definition resizeMainAxis (size : Z) : M unit :=
  update (with_resizingMainAxis true) ;;
  l <- getThis ;;
  (if negb (mainAxisSize l =? size) then
     set_mainAxisSize size ;;
     _layoutAxes
   else skip) ;;
  update (with_resizingMainAxis false).

Definition resizeCrossAxis (size : Z) : M unit :=
  update (with_resizingCrossAxis true) ;;
  l <- getThis ;;
  (if negb (crossAxisSize l =? size) then
     set_crossAxisSize size ;;
     _layoutCrossAxis
   else skip) ;;
  update (with_resizingCrossAxis false).

End Methods.

(** ** A reference implementation of the collaborators

    [LineLayouter.mjs], [ContentAligner.mjs], [ItemCoordinatesUpdater.mjs]
    and the layout target are not among the sources.  The general results
    below hold for any [Collaborators]; this module gives one implementation,
    written from the contracts of the specification, on which the methods can
    be run. *)
Module Reference.

(** A child with its index and its sizes along the container's axes. *)
Record Measured : Type := mkMeasured {
  idx : nat;
  mainSz : Z;
  crossSz : Z
}.

Definition measure (horizontal : bool) (its : list FlexTarget)
  : list Measured :=
  map (fun p =>
         mkMeasured (fst p)
                    (FlexUtils.getAxisLayoutSize (snd p) horizontal)
                    (FlexUtils.getAxisLayoutSize (snd p) (negb horizontal)))
      (combine (seq 0 (length its)) its).

Definition emptyLine : FlexLine := mkFlexLine [] 0 0 0.

(** The line with one more item at its end: the item sits where the line
    ended, the line grows by the item's main-axis size and is as high as
    its highest item. *)
Definition extendLine (m : Measured) (ln : FlexLine) : FlexLine :=
  mkFlexLine (lineItems ln ++ [(idx m, lineMainAxisSize ln)])
             (lineMainAxisSize ln + mainSz m)
             (Z.max (lineCrossAxisSize ln) (crossSz m))
             0.

Definition startLine (m : Measured) : FlexLine := extendLine m emptyLine.

(** Modelled from the spec: the line builder of [LineLayouter.mjs], which
    is not among the sources.  Without wrap one line takes all items; with
    wrap items are packed into the current line until the next one would
    exceed the available main-axis size, and an item that alone exceeds it
    gets a line of its own.  A line's main-axis size is the sum of its
    items' sizes. *)
Fixpoint buildLines (wrap : bool) (avail : Z) (cur : option FlexLine)
         (ms : list Measured) : list FlexLine :=
  match ms with
  | [] => match cur with Some ln => [ln] | None => [] end
  | m :: rest =>
      match cur with
      | None => buildLines wrap avail (Some (startLine m)) rest
      | Some ln =>
          if wrap && (avail <? lineMainAxisSize ln + mainSz m)
          then ln :: buildLines wrap avail (Some (startLine m)) rest
          else buildLines wrap avail (Some (extendLine m ln)) rest
      end
  end.

Definition sumZ (l : list Z) : Z := fold_right Z.add 0 l.
Definition maxZ (l : list Z) : Z := fold_right Z.max 0 l.

(** [FlexUtils.setAxisLayoutPos], the position counterpart of
    [FlexUtils.setAxisLayoutSize]. *)
Definition setAxisLayoutPos (i : FlexTarget) (horizontal : bool) (pos : Z)
  : FlexTarget :=
  if horizontal
  then mkFlexTarget (flexParent i) (axisW i) (axisH i) (layoutW i)
                    (layoutH i) pos (layoutY i) (updateDeferred i) (items i)
  else mkFlexTarget (flexParent i) (axisW i) (axisH i) (layoutW i)
                    (layoutH i) (layoutX i) pos (updateDeferred i) (items i).

Definition getAxisLayoutPos (i : FlexTarget) (horizontal : bool) : Z :=
  if horizontal then layoutX i else layoutY i.

Definition with_items (its : list FlexTarget) (i : FlexTarget) : FlexTarget :=
  mkFlexTarget (flexParent i) (axisW i) (axisH i) (layoutW i) (layoutH i)
               (layoutX i) (layoutY i) (updateDeferred i) its.

(** The line an item sits in, and its offset in that line. *)
Definition placeOf (lns : list FlexLine) (n : nat) : option (FlexLine * Z) :=
  match find (fun ln => existsb (fun e => Nat.eqb (fst e) n) (lineItems ln))
             lns with
  | Some ln =>
      match find (fun e => Nat.eqb (fst e) n) (lineItems ln) with
      | Some e => Some (ln, snd e)
      | None => None
      end
  | None => None
  end.

Definition mapItems (f : nat -> FlexTarget -> FlexTarget)
           (l : FlexLayout) : FlexLayout :=
  let its := items (item l) in
  with_item
    (with_items (map (fun p => f (fst p) (snd p))
                     (combine (seq 0 (length its)) its))
                (item l))
    l.

(** Modelled from the spec: [LineLayouter.layoutLines], which is not among
    the sources.  It rebuilds the lines from the children and the
    container's current main-axis size, records the content size (the
    longest line) and the minimum sizes that hold every item, and places
    each item at its offset on the main axis. *)
Definition layoutLines (l : FlexLayout) : FlexLayout :=
  let ms := measure (_horizontal l) (items (item l)) in
  let lns := buildLines (isWrapping l) (mainAxisSize l) None ms in
  let ll :=
    mkLineLayouter
      lns
      (maxZ (map lineMainAxisSize lns))
      (if isWrapping l then maxZ (map mainSz ms) else sumZ (map mainSz ms))
      (sumZ (map lineCrossAxisSize lns)) in
  mapItems (fun n it =>
              match placeOf lns n with
              | Some (_, off) => setAxisLayoutPos it (_horizontal l) off
              | None => it
              end)
           (with_lineLayouter ll l).

(** Modelled from the spec: [ContentAligner.init], which is not among the
    sources; the total cross-axis size is the sum of the lines' cross
    sizes (stacked lines). *)
Definition alignerInit (l : FlexLayout) : ContentAligner * FlexLayout :=
  (mkContentAligner (sumZ (map lineCrossAxisSize (lines (_lineLayouter l)))),
   l).

Fixpoint stackLines (pos : Z) (lns : list FlexLine) : list FlexLine :=
  match lns with
  | [] => []
  | ln :: rest =>
      mkFlexLine (lineItems ln) (lineMainAxisSize ln) (lineCrossAxisSize ln)
                 pos
      :: stackLines (pos + lineCrossAxisSize ln) rest
  end.

(** Modelled from the spec: [ContentAligner.align], which is not among the
    sources.  Lines are stacked from the start of the cross axis; an item
    is placed at its line's position, and stretched to the line's cross
    size when it has no fixed cross-axis basis. *)
Definition alignerAlign (a : ContentAligner) (l : FlexLayout) : FlexLayout :=
  let ll := _lineLayouter l in
  let lns := stackLines 0 (lines ll) in
  let cross := negb (_horizontal l) in
  mapItems (fun n it =>
              match placeOf lns n with
              | Some (ln, _) =>
                  let it' := setAxisLayoutPos it cross (lineCrossAxisPos ln) in
                  if FlexUtils.getAxisSize it' cross =? 0
                  then FlexUtils.setAxisLayoutSize it' cross
                                                   (lineCrossAxisSize ln)
                  else it'
              | None => it
              end)
           (with_lineLayouter
              (mkLineLayouter lns (mainAxisContentSize ll)
                              (mainAxisMinSize ll) (crossAxisMinSize ll))
              l).

(** Offsets relative to the parent become absolute coordinates, in the
    whole subtree. *)
Fixpoint toAbsolute (ox oy : Z) (i : FlexTarget) : FlexTarget :=
  match i with
  | mkFlexTarget fp aw ah lw lh x y ud its =>
      mkFlexTarget fp aw ah lw lh (ox + x) (oy + y) ud
                   (map (toAbsolute (ox + x) (oy + y)) its)
  end.

(** Modelled from the spec: [ItemCoordinatesUpdater.finalize], which is not
    among the sources.  Every child's offsets become absolute coordinates,
    after the correction for a reversed main axis, and so on below it. *)
Definition finalize (l : FlexLayout) : FlexLayout :=
  let h := _horizontal l in
  mapItems (fun _ it =>
              let it' :=
                if _reverse l
                then setAxisLayoutPos it h
                       (mainAxisSize l - getAxisLayoutPos it h
                        - FlexUtils.getAxisLayoutSize it h)
                else it in
              toAbsolute (layoutX (item l)) (layoutY (item l)) it')
           l.

(** Modelled from the spec: [item.resetNonFlexLayout], which is not among
    the sources; the layout size falls back to the configured size. *)
Definition resetNonFlexLayout (i : FlexTarget) : FlexTarget :=
  with_layoutH (axisH i) (with_layoutW (axisW i) i).

(** Modelled from the spec: [item.mustUpdateDeferred], which is not among
    the sources; it marks the subtree for an update when next observed. *)
Definition mustUpdateDeferred (i : FlexTarget) : FlexTarget :=
  mkFlexTarget (flexParent i) (axisW i) (axisH i) (layoutW i) (layoutH i)
               (layoutX i) (layoutY i) true (items i).

(** What these collaborators maintain: no line has a negative cross-axis
    size. *)
Definition linesMeasured (its : list FlexTarget) (ll : LineLayouter) : Prop :=
  Forall (fun ln => 0 <= lineCrossAxisSize ln) (lines ll).

Definition collaborators : Collaborators :=
  Build_Collaborators layoutLines alignerInit alignerAlign finalize
                      resetNonFlexLayout mustUpdateDeferred.

(** A leaf box of the given size. *)
Definition box (w h : Z) : FlexTarget :=
  mkFlexTarget (Some 0%nat) w h w h 0 0 false [].

(** A container over [its], freshly constructed. *)
Definition container (parent : option nat) (w h : Z) (wrap horizontal : bool)
           (its : list FlexTarget) : FlexLayout :=
  constructor
    (FlexContainer.mk (mkFlexTarget parent w h 0 0 0 0 false its)
                      wrap horizontal false).

End Reference.

(** ** The effect of a layout pass on [this]

    The objects a pass goes through, as functions of the object it starts
    on; the lemmas of the next part show that the methods compute them. *)
Section Passes.

Context {C : Collaborators}.

(** [this] after [_fitMainAxisSizeToContents]. *)
Definition fitMain (l : FlexLayout) : FlexLayout :=
  if negb (_resizingMainAxis l) then
    if isMainAxisFitToContents l then
      mainAxisSize_set (mainAxisContentSize (_lineLayouter l)) l
    else l
  else l.

(** [this] after [_fitCrossAxisSizeToContents]. *)
Definition fitCross (l : FlexLayout) : FlexLayout :=
  if negb (_resizingCrossAxis l) then
    if isCrossAxisFitToContents l then
      crossAxisSize_set (_totalCrossAxisSize l) l
    else l
  else l.

(** [this] after [_layoutMainAxis]. *)
Definition mainPass (l : FlexLayout) : FlexLayout :=
  fitMain (layoutLines l).

(** [this] when [_layoutCrossAxis] has recorded the aligner's total. *)
Definition crossMeasured (l : FlexLayout) : FlexLayout :=
  with_totalCrossAxisSize (totalCrossAxisSize (fst (alignerInit l)))
                          (snd (alignerInit l)).

(** [this] when [_layoutCrossAxis] invokes [aligner.align()]. *)
Definition crossFitted (l : FlexLayout) : FlexLayout :=
  fitCross (crossMeasured l).

(** [this] after [_layoutCrossAxis]. *)
Definition crossPass (l : FlexLayout) : FlexLayout :=
  alignerAlign (fst (alignerInit l)) (crossFitted l).

(** [this] after [_setInitialAxisSizes]. *)
Definition initialSizes (l : FlexLayout) : FlexLayout :=
  let l1 := mainAxisSize_set (_getMainAxisBasis l) l in
  let l2 := crossAxisSize_set (_getCrossAxisBasis l1) l1 in
  with_resizingCrossAxis false (with_resizingMainAxis false l2).

(** The calls of [_layoutAxes] started on [l]. *)
Definition axesLog (l : FlexLayout) : list Event :=
  [(CallLayoutLines, l);
   (CallAlignerInit, mainPass l);
   (CallAlignerAlign, crossFitted (mainPass l))].

(** The calls of [_layoutCrossAxis] started on [l]. *)
Definition crossLog (l : FlexLayout) : list Event :=
  [(CallAlignerInit, l); (CallAlignerAlign, crossFitted l)].

End Passes.

(** ** A layout pass, call by call *)

Section PassRuns.

Context {C : Collaborators}.

(** The cross-axis pass on [l2]: the aligner's [init] is invoked on [l2];
    with its total recorded and the cross axis fitted the object is [l3];
    [align] is invoked on [l3] and leaves [l4]. *)
Definition crossPassRuns (l2 l3 l4 : FlexLayout) : Prop :=
  l3 = this (exec _fitCrossAxisSizeToContents
                  (start (with_totalCrossAxisSize
                            (totalCrossAxisSize (fst (alignerInit l2)))
                            (snd (alignerInit l2))))) /\
  l4 = alignerAlign (fst (alignerInit l2)) l3.

(** Both passes on [l1]: line layout is invoked on [l1]; with the main axis
    fitted the object is [l2], on which the cross-axis pass runs. *)
Definition bothPassesRun (l1 l2 l3 l4 : FlexLayout) : Prop :=
  l2 = this (exec _fitMainAxisSizeToContents (start (layoutLines l1))) /\
  crossPassRuns l2 l3 l4.

End PassRuns.

(** ** The public operations *)

Inductive Op : Type :=
| OpLayoutTree
| OpUpdateTreeLayout
| OpResizeMainAxis (size : Z)
| OpResizeCrossAxis (size : Z)
| OpGetAxisMinSize (horizontal : bool)
| OpDeferLayout.

Definition perform {C : Collaborators} (o : Op) : M unit :=
  match o with
  | OpLayoutTree => layoutTree
  | OpUpdateTreeLayout => updateTreeLayout
  | OpResizeMainAxis size => resizeMainAxis size
  | OpResizeCrossAxis size => resizeCrossAxis size
  | OpGetAxisMinSize horizontal => getAxisMinSize horizontal ;; skip
  | OpDeferLayout => deferLayout
  end.

Fixpoint performAll {C : Collaborators} (os : list Op) : M unit :=
  match os with
  | [] => skip
  | o :: rest => perform o ;; performAll rest
  end.

(** The sizes passed to the resize operations of [os] are not negative. *)
Definition nonNegativeArgs (os : list Op) : Prop :=
  Forall (fun o => match o with
                   | OpResizeMainAxis size | OpResizeCrossAxis size => 0 <= size
                   | _ => True
                   end) os.

(** ** What a collaborator leaves alone

    The part of the container that is the layouter's own: orientation, wrap,
    basis and resolved size on both axes, and the resizing flags. *)
Definition own (l : FlexLayout)
  : bool * bool * (Z * Z) * (Z * Z) * (bool * bool) :=
  (_horizontal l, isWrapping l,
   (_getMainAxisBasis l, _getCrossAxisBasis l),
   (mainAxisSize l, crossAxisSize l),
   (_resizingMainAxis l, _resizingCrossAxis l)).

(** The same, without the resolved main-axis size. *)
Definition ownButMain (l : FlexLayout)
  : bool * bool * (Z * Z) * Z * (bool * bool) :=
  (_horizontal l, isWrapping l,
   (_getMainAxisBasis l, _getCrossAxisBasis l),
   crossAxisSize l,
   (_resizingMainAxis l, _resizingCrossAxis l)).

(** The same, without the resolved cross-axis size. *)
Definition ownButCross (l : FlexLayout)
  : bool * bool * (Z * Z) * Z * (bool * bool) :=
  (_horizontal l, isWrapping l,
   (_getMainAxisBasis l, _getCrossAxisBasis l),
   mainAxisSize l,
   (_resizingMainAxis l, _resizingCrossAxis l)).

(** Collaborators that work on lines and children only. *)
Record Framed (C : Collaborators) : Prop := mkFramed {
  layoutLines_own : forall l, own (layoutLines l) = own l;
  alignerInit_own : forall l, own (snd (alignerInit l)) = own l;
  alignerAlign_own : forall a l, own (alignerAlign a l) = own l;
  finalize_own : forall l, own (finalize l) = own l
}.

(** Configured and resolved sizes of the item are not negative. *)
Definition nonNegative (l : FlexLayout) : Prop :=
  0 <= axisW (item l) /\ 0 <= axisH (item l) /\
  0 <= layoutW (item l) /\ 0 <= layoutH (item l).

(** The same, with what the collaborators maintain about children and
    lines. *)
Definition sound (K : list FlexTarget -> LineLayouter -> Prop)
           (l : FlexLayout) : Prop :=
  nonNegative l /\ K (items (item l)) (_lineLayouter l).

(** Collaborators that, given [K] of children and lines, keep sizes
    non-negative and report non-negative content sizes. *)
Record Measuring (C : Collaborators)
       (K : list FlexTarget -> LineLayouter -> Prop) : Prop := mkMeasuring {
  layoutLines_sound :
    forall l, sound K l ->
              sound K (layoutLines l) /\
              0 <= mainAxisContentSize (_lineLayouter (layoutLines l));
  alignerInit_sound :
    forall l, sound K l ->
              sound K (snd (alignerInit l)) /\
              0 <= totalCrossAxisSize (fst (alignerInit l));
  alignerAlign_sound :
    forall a l, sound K l -> sound K (alignerAlign a l);
  finalize_sound :
    forall l, sound K l -> sound K (finalize l);
  resetNonFlexLayout_sound :
    forall l, sound K l -> sound K (with_item (resetNonFlexLayout (item l)) l);
  mustUpdateDeferred_sound :
    forall l, sound K l -> sound K (with_item (mustUpdateDeferred (item l)) l)
}.

(** ** Sample containers

    Containers of the reference implementation on which the results below
    are run. *)
Module Sample.

(** A row without wrap and without basis, over three boxes. *)
Definition row : FlexLayout :=
  Reference.container None 0 0 false true
    [Reference.box 5 3; Reference.box 5 4; Reference.box 5 2].

(** A wrapping row of basis 10 over the same boxes. *)
Definition wrapped : FlexLayout :=
  Reference.container None 10 0 true true
    [Reference.box 5 3; Reference.box 5 4; Reference.box 5 2].

(** A column of basis 40 along its main axis and 20 across. *)
Definition column : FlexLayout :=
  Reference.container None 20 40 false false
    [Reference.box 5 3; Reference.box 5 4].

(** A flex item that is a container itself: a row of basis 100 that the
    enclosing container has shrunk to 80 on its main axis. *)
Definition shrunk : FlexLayout :=
  mainAxisSize_set 80
    (Reference.container (Some 7%nat) 100 0 false true
       [Reference.box 30 10; Reference.box 30 20]).

Definition run {A : Type} (m : M A) (l : FlexLayout) : Run :=
  exec m (start l).

(** The wrapping row once laid out: 10 along, 6 across. *)
Definition laid : FlexLayout :=
  this (run (@updateTreeLayout Reference.collaborators) wrapped).

End Sample.

(** ** Further getters of [FlexLayout] *)

Module Getters.

(** [get items()] *)
Definition items (l : FlexLayout) : list FlexTarget := items (item l).

(** [get numberOfItems()] *)
Definition numberOfItems (l : FlexLayout) : nat := length (items l).

(** [get _lines()] *)
Definition _lines (l : FlexLayout) : list FlexLine := lines (_lineLayouter l).

End Getters.

(** The padding getters and [getParentFlexContainer] go through
    [FlexUtils.getTotalPadding], [FlexUtils.getPaddingOffset],
    [item.isFlexItemEnabled()] and [item.flexItem.ctr], none of which is among
    the sources: they are given for any such functions. *)
Section Queries.

Variable getTotalPadding : FlexTarget -> bool -> Z.
Variable getPaddingOffset : FlexTarget -> bool -> Z.
Variable Ctr : Type.
Variable isFlexItemEnabled : FlexTarget -> bool.
Variable flexItem_ctr : FlexTarget -> option Ctr.

Definition getParentFlexContainer (l : FlexLayout) : option Ctr :=
  if isFlexItemEnabled (item l) then flexItem_ctr (item l) else None.

Definition _getMainAxisPadding (l : FlexLayout) : Z :=
  getTotalPadding (item l) (_horizontal l).

Definition _getCrossAxisPadding (l : FlexLayout) : Z :=
  getTotalPadding (item l) (negb (_horizontal l)).

Definition _getHorizontalPadding (l : FlexLayout) : Z :=
  getTotalPadding (item l) true.

Definition _getVerticalPadding (l : FlexLayout) : Z :=
  getTotalPadding (item l) false.

Definition _getHorizontalPaddingOffset (l : FlexLayout) : Z :=
  getPaddingOffset (item l) true.

Definition _getVerticalPaddingOffset (l : FlexLayout) : Z :=
  getPaddingOffset (item l) false.

End Queries.

(** ** The shape of a call log

    The logs made of the call groups of the public operations: both passes,
    the cross-axis pass alone, both passes followed by the coordinates pass,
    and the two item calls of a deferral. *)
Inductive Protocol : list Call -> Prop :=
| Protocol_nil : Protocol []
| Protocol_axes cs :
    Protocol cs ->
    Protocol (cs ++ [CallLayoutLines; CallAlignerInit; CallAlignerAlign])
| Protocol_cross cs :
    Protocol cs -> Protocol (cs ++ [CallAlignerInit; CallAlignerAlign])
| Protocol_tree cs :
    Protocol cs ->
    Protocol (cs ++ [CallLayoutLines; CallAlignerInit; CallAlignerAlign;
                     CallFinalize])
| Protocol_defer cs :
    Protocol cs ->
    Protocol (cs ++ [CallResetNonFlexLayout; CallMustUpdateDeferred]).

Definition Call_eqb (a b : Call) : bool :=
  match a, b with
  | CallLayoutLines, CallLayoutLines
  | CallAlignerInit, CallAlignerInit
  | CallAlignerAlign, CallAlignerAlign
  | CallFinalize, CallFinalize
  | CallResetNonFlexLayout, CallResetNonFlexLayout
  | CallMustUpdateDeferred, CallMustUpdateDeferred => true
  | _, _ => false
  end.

(** Every [c] of the log [cs] comes right after a [p]; [prev] is the call
    before the log, if any. *)
Fixpoint rightAfter (p c : Call) (prev : option Call) (cs : list Call)
  : bool :=
  match cs with
  | [] => true
  | x :: rest =>
      (if Call_eqb x c
       then match prev with Some y => Call_eqb y p | None => false end
       else true)
      && rightAfter p c (Some x) rest
  end.

(** The last call of [cs], or [prev] when there is none. *)
Fixpoint lastCall (prev : option Call) (cs : list Call) : option Call :=
  match cs with
  | [] => prev
  | x :: rest => lastCall (Some x) rest
  end.

(** Neither resizing flag is raised. *)
Definition resting (l : FlexLayout) : Prop :=
  _resizingMainAxis l = false /\ _resizingCrossAxis l = false.

(** Orientation, wrap and the two bases. *)
Definition settings (l : FlexLayout) : bool * bool * (Z * Z) :=
  (_horizontal l, isWrapping l, (_getMainAxisBasis l, _getCrossAxisBasis l)).

(** Further sample containers of the reference implementation. *)
Module Sample2.

(** A wrapping row without basis. *)
Definition wrappedAuto : FlexLayout :=
  Reference.container None 0 0 true true
    [Reference.box 5 3; Reference.box 5 4; Reference.box 5 2].

(** A flex item that is a row without basis, over two boxes. *)
Definition autoItem : FlexLayout :=
  Reference.container (Some 7%nat) 0 0 false true
    [Reference.box 30 10; Reference.box 30 20].

(** A flex item that is a wrapping row without basis. *)
Definition wrappedItem : FlexLayout :=
  Reference.container (Some 7%nat) 0 0 true true
    [Reference.box 30 10; Reference.box 30 20].

End Sample2.

(** * Results *)

(** ** Running the monad *)

Lemma exec_bind {A B : Type} (m : M A) (f : A -> M B) (r : Run) :
  exec (bind m f) r = exec (f (result m r)) (exec m r).
Proof. unfold exec, result. cbn. destruct (runState m r). reflexivity. Qed.

Lemma result_bind {A B : Type} (m : M A) (f : A -> M B) (r : Run) :
  result (bind m f) r = result (f (result m r)) (exec m r).
Proof. unfold exec, result. cbn. destruct (runState m r). reflexivity. Qed.

Lemma exec_ret {A : Type} (a : A) (r : Run) : exec (ret a : M A) r = r.
Proof. reflexivity. Qed.

Lemma result_ret {A : Type} (a : A) (r : Run) : result (ret a : M A) r = a.
Proof. reflexivity. Qed.

Lemma exec_skip (r : Run) : exec skip r = r.
Proof. reflexivity. Qed.

Lemma exec_getThis (r : Run) : exec getThis r = r.
Proof. reflexivity. Qed.

Lemma result_getThis (r : Run) : result getThis r = this r.
Proof. reflexivity. Qed.

Lemma exec_update (f : FlexLayout -> FlexLayout) (r : Run) :
  exec (update f) r = mkRun (f (this r)) (log r).
Proof. reflexivity. Qed.

Lemma exec_call (c : Call) (f : FlexLayout -> FlexLayout) (r : Run) :
  exec (call c f) r = mkRun (f (this r)) (log r ++ [(c, this r)]).
Proof. reflexivity. Qed.

Lemma exec_callInit {C : Collaborators} (r : Run) :
  exec callInit r =
  mkRun (snd (alignerInit (this r))) (log r ++ [(CallAlignerInit, this r)]).
Proof.
  unfold exec, callInit. cbn. destruct (alignerInit (this r)). reflexivity.
Qed.

Lemma result_callInit {C : Collaborators} (r : Run) :
  result callInit r = fst (alignerInit (this r)).
Proof.
  unfold result, callInit. cbn. destruct (alignerInit (this r)). reflexivity.
Qed.

Lemma run_exec_result {A : Type} (m : M A) (r : Run) :
  runState m r = (result m r, exec m r).
Proof. unfold exec, result. destruct (runState m r). reflexivity. Qed.

Create Rewrite HintDb run.

#[local] Hint Rewrite @exec_bind @result_bind @exec_ret @result_ret
  exec_skip exec_getThis result_getThis exec_update exec_call
  @exec_callInit @result_callInit : run.

Ltac run :=
  cbv zeta;
  repeat (autorewrite with run; cbn [this log fst snd]);
  repeat match goal with
         | |- context [result getThis ?r] =>
             change (result getThis r) with (this r)
         end.

(** ** The methods compute the passes *)

Section MethodEquations.

Context {C : Collaborators}.

Lemma exec_fitMain (r : Run) :
  exec _fitMainAxisSizeToContents r = mkRun (fitMain (this r)) (log r).
Proof.
  unfold _fitMainAxisSizeToContents, set_mainAxisSize, fitMain. run.
  destruct r as [l lg]; cbn [this log].
  destruct (negb (_resizingMainAxis l)); [|reflexivity].
  destruct (isMainAxisFitToContents l); reflexivity.
Qed.

Lemma exec_fitCross (r : Run) :
  exec _fitCrossAxisSizeToContents r = mkRun (fitCross (this r)) (log r).
Proof.
  unfold _fitCrossAxisSizeToContents, set_crossAxisSize, fitCross. run.
  destruct r as [l lg]; cbn [this log].
  destruct (negb (_resizingCrossAxis l)); [|reflexivity].
  destruct (isCrossAxisFitToContents l); reflexivity.
Qed.

Lemma exec_layoutMainAxis (r : Run) :
  exec _layoutMainAxis r =
  mkRun (mainPass (this r)) (log r ++ [(CallLayoutLines, this r)]).
Proof.
  unfold _layoutMainAxis, _layoutLines, mainPass. run.
  rewrite exec_fitMain. reflexivity.
Qed.

Lemma exec_layoutCrossAxis (r : Run) :
  exec _layoutCrossAxis r =
  mkRun (crossPass (this r)) (log r ++ crossLog (this r)).
Proof.
  unfold _layoutCrossAxis, crossPass, crossLog, crossFitted, crossMeasured.
  run. rewrite exec_fitCross. run.
  rewrite <- app_assoc. reflexivity.
Qed.

Lemma exec_layoutAxes (r : Run) :
  exec _layoutAxes r =
  mkRun (crossPass (mainPass (this r))) (log r ++ axesLog (this r)).
Proof.
  unfold _layoutAxes, axesLog. run.
  rewrite exec_layoutMainAxis, exec_layoutCrossAxis. cbn [this log].
  rewrite <- app_assoc. reflexivity.
Qed.

Lemma exec_setInitialAxisSizes (r : Run) :
  exec _setInitialAxisSizes r = mkRun (initialSizes (this r)) (log r).
Proof.
  unfold _setInitialAxisSizes, set_mainAxisSize, set_crossAxisSize,
    initialSizes. run. reflexivity.
Qed.

Lemma exec_updateTreeLayout (r : Run) :
  exec updateTreeLayout r =
  let l1 := initialSizes (with_deferLayout false (this r)) in
  mkRun (crossPass (mainPass l1)) (log r ++ axesLog l1).
Proof.
  unfold updateTreeLayout, resetDeferredLayout. run.
  rewrite exec_setInitialAxisSizes, exec_layoutAxes. reflexivity.
Qed.

Lemma exec_updateTreeLayoutWithCurrentAxes (r : Run) :
  exec _updateTreeLayoutWithCurrentAxes r =
  let l1 := with_deferLayout false (this r) in
  mkRun (crossPass (mainPass l1)) (log r ++ axesLog l1).
Proof.
  unfold _updateTreeLayoutWithCurrentAxes, resetDeferredLayout. run.
  rewrite exec_layoutAxes. reflexivity.
Qed.

Lemma exec_resizeMainAxis (size : Z) (r : Run) :
  exec (resizeMainAxis size) r =
  let l0 := with_resizingMainAxis true (this r) in
  if mainAxisSize l0 =? size
  then mkRun (with_resizingMainAxis false l0) (log r)
  else
    let l1 := mainAxisSize_set size l0 in
    mkRun (with_resizingMainAxis false (crossPass (mainPass l1)))
          (log r ++ axesLog l1).
Proof.
  unfold resizeMainAxis, set_mainAxisSize. run.
  cbv zeta. destruct (mainAxisSize _ =? size); cbn [negb]; run.
  - reflexivity.
  - rewrite exec_layoutAxes. run. reflexivity.
Qed.

Lemma exec_resizeCrossAxis (size : Z) (r : Run) :
  exec (resizeCrossAxis size) r =
  let l0 := with_resizingCrossAxis true (this r) in
  if crossAxisSize l0 =? size
  then mkRun (with_resizingCrossAxis false l0) (log r)
  else
    let l1 := crossAxisSize_set size l0 in
    mkRun (with_resizingCrossAxis false (crossPass l1))
          (log r ++ crossLog l1).
Proof.
  unfold resizeCrossAxis, set_crossAxisSize. run.
  cbv zeta. destruct (crossAxisSize _ =? size); cbn [negb]; run.
  - reflexivity.
  - rewrite exec_layoutCrossAxis. run. reflexivity.
Qed.

Lemma exec_layoutTree (r : Run) :
  exec layoutTree r =
  let l1 :=
    match flexParent (item (this r)) with
    | Some _ => with_deferLayout false (this r)
    | None => initialSizes (with_deferLayout false (this r))
    end in
  mkRun (finalize (crossPass (mainPass l1)))
        (log r ++ axesLog l1 ++ [(CallFinalize, crossPass (mainPass l1))]).
Proof.
  unfold layoutTree, updateItemCoords. run.
  destruct (flexParent (item (this r))).
  - rewrite exec_updateTreeLayoutWithCurrentAxes. run.
    rewrite <- app_assoc. reflexivity.
  - rewrite exec_updateTreeLayout. run.
    rewrite <- app_assoc. reflexivity.
Qed.

Lemma exec_deferLayout (r : Run) :
  exec deferLayout r =
  let l1 := with_deferLayout true (this r) in
  let l2 := with_item (resetNonFlexLayout (item l1)) l1 in
  mkRun (with_item (mustUpdateDeferred (item l2)) l2)
        (log r ++ [(CallResetNonFlexLayout, l1);
                   (CallMustUpdateDeferred, l2)]).
Proof.
  unfold deferLayout. run. rewrite <- app_assoc. reflexivity.
Qed.

Lemma exec_getMainAxisMinSize (r : Run) :
  exec _getMainAxisMinSize r =
  if isLayoutDeferred (this r) then exec updateTreeLayout r else r.
Proof.
  unfold _getMainAxisMinSize. run.
  destruct (isLayoutDeferred (this r)); reflexivity.
Qed.

Lemma exec_getCrossAxisMinSize (r : Run) :
  exec _getCrossAxisMinSize r =
  if isLayoutDeferred (this r) then exec updateTreeLayout r else r.
Proof.
  unfold _getCrossAxisMinSize. run.
  destruct (isLayoutDeferred (this r)); reflexivity.
Qed.

Lemma result_getMainAxisMinSize (r : Run) :
  result _getMainAxisMinSize r =
  mainAxisMinSize (_lineLayouter (this (exec _getMainAxisMinSize r))).
Proof.
  rewrite exec_getMainAxisMinSize. unfold _getMainAxisMinSize. run.
  destruct (isLayoutDeferred (this r)); reflexivity.
Qed.

Lemma result_getCrossAxisMinSize (r : Run) :
  result _getCrossAxisMinSize r =
  crossAxisMinSize (_lineLayouter (this (exec _getCrossAxisMinSize r))).
Proof.
  rewrite exec_getCrossAxisMinSize. unfold _getCrossAxisMinSize. run.
  destruct (isLayoutDeferred (this r)); reflexivity.
Qed.

Lemma exec_getAxisMinSize (horizontal : bool) (r : Run) :
  exec (getAxisMinSize horizontal) r =
  if isLayoutDeferred (this r) then exec updateTreeLayout r else r.
Proof.
  unfold getAxisMinSize. run.
  destruct (Bool.eqb (_horizontal (this r)) horizontal).
  - apply exec_getMainAxisMinSize.
  - apply exec_getCrossAxisMinSize.
Qed.

End MethodEquations.

(** ** Reading sizes back *)

Lemma mainAxisSize_set_get (v : Z) (l : FlexLayout) :
  mainAxisSize (mainAxisSize_set v l) = v.
Proof.
  destruct l as [[i w h rv] ll a b d t].
  unfold mainAxisSize, mainAxisSize_set; destruct h; reflexivity.
Qed.

Lemma crossAxisSize_set_get (v : Z) (l : FlexLayout) :
  crossAxisSize (crossAxisSize_set v l) = v.
Proof.
  destruct l as [[i w h rv] ll a b d t].
  unfold crossAxisSize, crossAxisSize_set; destruct h; reflexivity.
Qed.

Lemma mainAxisSize_set_ownButMain (v : Z) (l : FlexLayout) :
  ownButMain (mainAxisSize_set v l) = ownButMain l.
Proof.
  destruct l as [[i w h rv] ll a b d t].
  unfold ownButMain, mainAxisSize_set; destruct h; reflexivity.
Qed.

Lemma crossAxisSize_set_ownButCross (v : Z) (l : FlexLayout) :
  ownButCross (crossAxisSize_set v l) = ownButCross l.
Proof.
  destruct l as [[i w h rv] ll a b d t].
  unfold ownButCross, crossAxisSize_set; destruct h; reflexivity.
Qed.

Lemma initialSizes_main (l : FlexLayout) :
  mainAxisSize (initialSizes l) = _getMainAxisBasis l.
Proof.
  destruct l as [[i w h rv] ll a b d t].
  unfold initialSizes; destruct h; reflexivity.
Qed.

Lemma initialSizes_cross (l : FlexLayout) :
  crossAxisSize (initialSizes l) = _getCrossAxisBasis l.
Proof.
  destruct l as [[i w h rv] ll a b d t].
  unfold initialSizes; destruct h; reflexivity.
Qed.

Lemma initialSizes_config (l : FlexLayout) :
  _horizontal (initialSizes l) = _horizontal l /\
  isWrapping (initialSizes l) = isWrapping l /\
  _getMainAxisBasis (initialSizes l) = _getMainAxisBasis l /\
  _getCrossAxisBasis (initialSizes l) = _getCrossAxisBasis l /\
  _resizingMainAxis (initialSizes l) = false /\
  _resizingCrossAxis (initialSizes l) = false /\
  _deferLayout (initialSizes l) = _deferLayout l.
Proof.
  destruct l as [[i w h rv] ll a b d t].
  unfold initialSizes; destruct h; repeat split; reflexivity.
Qed.

(** ** Fit to contents *)

(** C1.  After line layout, [_layoutMainAxis] sets the main-axis size to the
    line layouter's main-axis content size when the container is not resizing
    its main axis, does not wrap and has a zero main-axis basis; in every
    other case it leaves the object, and so the main-axis size, as line
    layout left it. *)
Theorem main_axis_fit_guard {C : Collaborators} (r : Run) :
  let l1 := layoutLines (this r) in
  let r' := exec _layoutMainAxis r in
  let eligible :=
    _resizingMainAxis l1 = false /\ isWrapping l1 = false /\
    _getMainAxisBasis l1 = 0 in
  log r' = log r ++ [(CallLayoutLines, this r)] /\
  (eligible ->
   this r' = mainAxisSize_set (mainAxisContentSize (_lineLayouter l1)) l1 /\
   mainAxisSize (this r') = mainAxisContentSize (_lineLayouter l1)) /\
  (~ eligible -> this r' = l1).
Proof.
  cbv zeta. rewrite exec_layoutMainAxis. cbn [this log].
  unfold mainPass, fitMain, isMainAxisFitToContents, _hasFixedMainAxisBasis.
  split; [reflexivity|]. split.
  - intros (H1 & H2 & H3). rewrite H1, H2, H3. cbn [negb andb Z.eqb].
    split; [reflexivity | apply mainAxisSize_set_get].
  - intros H.
    destruct (_resizingMainAxis (layoutLines (this r))); [reflexivity|].
    destruct (isWrapping (layoutLines (this r))); [reflexivity|].
    destruct (Z.eqb_spec (_getMainAxisBasis (layoutLines (this r))) 0);
      [|reflexivity].
    exfalso. apply H. auto.
Qed.

(** C2.  [_layoutCrossAxis] runs the aligner's [init], records its total,
    and sets the cross-axis size to that total when the container is not
    resizing its cross axis and has a zero cross-axis basis, whether it wraps
    or not; otherwise the size stays.  [align] is the last call, on the
    object so fitted, and nothing follows it. *)
Theorem cross_axis_fit_guard {C : Collaborators} (r : Run) :
  let aligner := fst (alignerInit (this r)) in
  let l1 := with_totalCrossAxisSize (totalCrossAxisSize aligner)
                                    (snd (alignerInit (this r))) in
  let r' := exec _layoutCrossAxis r in
  let eligible :=
    _resizingCrossAxis l1 = false /\ _getCrossAxisBasis l1 = 0 in
  exists l2,
    log r' = log r ++ [(CallAlignerInit, this r); (CallAlignerAlign, l2)] /\
    this r' = alignerAlign aligner l2 /\
    (eligible ->
     l2 = crossAxisSize_set (totalCrossAxisSize aligner) l1 /\
     crossAxisSize l2 = totalCrossAxisSize aligner) /\
    (~ eligible -> l2 = l1).
Proof.
  cbv zeta. rewrite exec_layoutCrossAxis. cbn [this log].
  exists (crossFitted (this r)).
  unfold crossPass, crossLog, crossFitted, crossMeasured, fitCross,
    isCrossAxisFitToContents, _hasFixedCrossAxisBasis.
  set (a := fst (alignerInit (this r))).
  set (l1 := with_totalCrossAxisSize (totalCrossAxisSize a)
                                     (snd (alignerInit (this r)))).
  split; [reflexivity|]. split; [reflexivity|]. split.
  - intros (H1 & H2). rewrite H1, H2. cbn [negb Z.eqb].
    split; [reflexivity | apply crossAxisSize_set_get].
  - intros H.
    destruct (_resizingCrossAxis l1); [reflexivity|].
    destruct (Z.eqb_spec (_getCrossAxisBasis l1) 0); [|reflexivity].
    exfalso. apply H. auto.
Qed.

(** ** Resizing *)

Lemma crossPassRuns_passes {C : Collaborators} (l : FlexLayout) :
  crossPassRuns l (crossFitted l) (crossPass l).
Proof.
  unfold crossPassRuns. rewrite exec_fitCross. split; reflexivity.
Qed.

Lemma bothPassesRun_passes {C : Collaborators} (l : FlexLayout) :
  bothPassesRun l (mainPass l) (crossFitted (mainPass l))
                (crossPass (mainPass l)).
Proof.
  unfold bothPassesRun. rewrite exec_fitMain.
  split; [reflexivity | apply crossPassRuns_passes].
Qed.

(** C3.  [resizeMainAxis] with a size other than the current main-axis size
    re-runs both passes on the object that has the new size and the raised
    flag: line layout is invoked on it, the main-axis fit step follows (and
    writes nothing if line layout left the flag raised), then the aligner's
    [init], the cross-axis fit step and [align]; the object it ends with is
    the one [align] leaves, with the flag lowered.  [resizeCrossAxis] with a
    size other than the current cross-axis size re-runs the cross-axis pass
    only: [init] is invoked on the object that has the new size, then the
    fit step and [align]; line layout is not invoked. *)
Theorem resize_scope {C : Collaborators} (size : Z) (r : Run) :
  (mainAxisSize (this r) <> size ->
   let l1 := mainAxisSize_set size (with_resizingMainAxis true (this r)) in
   calls (exec (resizeMainAxis size) r) =
     calls r ++ [CallLayoutLines; CallAlignerInit; CallAlignerAlign] /\
   exec (resizeMainAxis size) r =
     exec (update (with_resizingMainAxis false))
          (exec _layoutAxes (mkRun l1 (log r))) /\
   exists l2 l3 l4,
     bothPassesRun l1 l2 l3 l4 /\
     log (exec (resizeMainAxis size) r) =
       log r ++ [(CallLayoutLines, l1); (CallAlignerInit, l2);
                 (CallAlignerAlign, l3)] /\
     this (exec (resizeMainAxis size) r) = with_resizingMainAxis false l4 /\
     (_resizingMainAxis (layoutLines l1) = true -> l2 = layoutLines l1)) /\
  (crossAxisSize (this r) <> size ->
   let l1 := crossAxisSize_set size (with_resizingCrossAxis true (this r)) in
   calls (exec (resizeCrossAxis size) r) =
     calls r ++ [CallAlignerInit; CallAlignerAlign] /\
   exec (resizeCrossAxis size) r =
     exec (update (with_resizingCrossAxis false))
          (exec _layoutCrossAxis (mkRun l1 (log r))) /\
   exists l3 l4,
     crossPassRuns l1 l3 l4 /\
     log (exec (resizeCrossAxis size) r) =
       log r ++ [(CallAlignerInit, l1); (CallAlignerAlign, l3)] /\
     this (exec (resizeCrossAxis size) r) = with_resizingCrossAxis false l4 /\
     (_resizingCrossAxis (snd (alignerInit l1)) = true ->
      l3 = with_totalCrossAxisSize
             (totalCrossAxisSize (fst (alignerInit l1)))
             (snd (alignerInit l1)))).
Proof.
  split; intros H; cbv zeta.
  - rewrite exec_resizeMainAxis, exec_layoutAxes. cbv zeta.
    change (mainAxisSize (with_resizingMainAxis true (this r)))
      with (mainAxisSize (this r)).
    destruct (Z.eqb_spec (mainAxisSize (this r)) size); [contradiction|].
    set (l1 := mainAxisSize_set size (with_resizingMainAxis true (this r))).
    split; [unfold calls; cbn [log this]; rewrite map_app; reflexivity|].
    split; [reflexivity|].
    exists (mainPass l1), (crossFitted (mainPass l1)),
      (crossPass (mainPass l1)).
    split; [apply bothPassesRun_passes|].
    split; [reflexivity|]. split; [reflexivity|].
    intros Hf. unfold mainPass, fitMain. rewrite Hf. reflexivity.
  - rewrite exec_resizeCrossAxis, exec_layoutCrossAxis. cbv zeta.
    change (crossAxisSize (with_resizingCrossAxis true (this r)))
      with (crossAxisSize (this r)).
    destruct (Z.eqb_spec (crossAxisSize (this r)) size); [contradiction|].
    set (l1 := crossAxisSize_set size (with_resizingCrossAxis true (this r))).
    split; [unfold calls; cbn [log this]; rewrite map_app; reflexivity|].
    split; [reflexivity|].
    exists (crossFitted l1), (crossPass l1).
    split; [apply crossPassRuns_passes|].
    split; [reflexivity|]. split; [reflexivity|].
    intros Hf. unfold crossFitted, fitCross, crossMeasured.
    change (_resizingCrossAxis
              (with_totalCrossAxisSize
                 (totalCrossAxisSize (fst (alignerInit l1)))
                 (snd (alignerInit l1))))
      with (_resizingCrossAxis (snd (alignerInit l1))).
    rewrite Hf. reflexivity.
Qed.

(** ** Passes under framed collaborators *)

Lemma own_ownButMain (a b : FlexLayout) :
  own a = own b -> ownButMain a = ownButMain b.
Proof. unfold own, ownButMain. congruence. Qed.

Lemma own_ownButCross (a b : FlexLayout) :
  own a = own b -> ownButCross a = ownButCross b.
Proof. unfold own, ownButCross. congruence. Qed.

Section FramedPasses.

Context {C : Collaborators} (F : Framed C).

Lemma mainPass_ownButMain (l : FlexLayout) :
  ownButMain (mainPass l) = ownButMain l.
Proof.
  unfold mainPass, fitMain.
  pose proof (own_ownButMain _ _ (layoutLines_own C F l)) as H.
  destruct (negb (_resizingMainAxis (layoutLines l))); [|exact H].
  destruct (isMainAxisFitToContents (layoutLines l)); [|exact H].
  rewrite mainAxisSize_set_ownButMain. exact H.
Qed.

(** While resizing the main axis, or with a fixed main-axis basis, or when
    wrapping, main-axis layout keeps the container's own part. *)
Lemma mainPass_own (l : FlexLayout) :
  _resizingMainAxis l = true \/ isMainAxisFitToContents l = false ->
  own (mainPass l) = own l.
Proof.
  intros H. unfold mainPass, fitMain.
  pose proof (layoutLines_own C F l) as Ho.
  assert (Hr : _resizingMainAxis (layoutLines l) = _resizingMainAxis l)
    by (unfold own in Ho; congruence).
  assert (Hf : isMainAxisFitToContents (layoutLines l)
               = isMainAxisFitToContents l)
    by (unfold isMainAxisFitToContents, _hasFixedMainAxisBasis;
        unfold own in Ho; congruence).
  rewrite Hr, Hf.
  destruct H as [-> | ->]; [exact Ho|].
  destruct (negb (_resizingMainAxis l)); exact Ho.
Qed.

Lemma crossMeasured_own (l : FlexLayout) : own (crossMeasured l) = own l.
Proof. exact (alignerInit_own C F l). Qed.

Lemma crossPass_ownButCross (l : FlexLayout) :
  ownButCross (crossPass l) = ownButCross l.
Proof.
  unfold crossPass, crossFitted, fitCross.
  pose proof (own_ownButCross _ _ (crossMeasured_own l)) as H.
  rewrite (own_ownButCross _ _ (alignerAlign_own C F _ _)).
  destruct (negb (_resizingCrossAxis (crossMeasured l))); [|exact H].
  destruct (isCrossAxisFitToContents (crossMeasured l)); [|exact H].
  rewrite crossAxisSize_set_ownButCross. exact H.
Qed.

(** While resizing the cross axis, or with a fixed cross-axis basis,
    cross-axis layout keeps the container's own part. *)
Lemma crossPass_own (l : FlexLayout) :
  _resizingCrossAxis l = true \/ isCrossAxisFitToContents l = false ->
  own (crossPass l) = own l.
Proof.
  intros H. unfold crossPass, crossFitted, fitCross.
  pose proof (crossMeasured_own l) as Ho.
  rewrite (alignerAlign_own C F).
  assert (Hr : _resizingCrossAxis (crossMeasured l) = _resizingCrossAxis l)
    by (unfold own in Ho; congruence).
  assert (Hf : isCrossAxisFitToContents (crossMeasured l)
               = isCrossAxisFitToContents l)
    by (unfold isCrossAxisFitToContents, _hasFixedCrossAxisBasis;
        unfold own in Ho; congruence).
  rewrite Hr, Hf.
  destruct H as [-> | ->]; [exact Ho|].
  destruct (negb (_resizingCrossAxis l)); exact Ho.
Qed.

(** A changed main-axis resize ends on the requested size. *)
Lemma resizeMainAxis_size (size : Z) (r : Run) :
  mainAxisSize (this (exec (resizeMainAxis size) r)) = size.
Proof.
  rewrite exec_resizeMainAxis. cbv zeta.
  change (mainAxisSize (with_resizingMainAxis true (this r)))
    with (mainAxisSize (this r)).
  destruct (Z.eqb_spec (mainAxisSize (this r)) size) as [E|E];
    cbn [this]; [exact E|].
  set (l1 := mainAxisSize_set size (with_resizingMainAxis true (this r))).
  change (mainAxisSize (crossPass (mainPass l1)) = size).
  assert (H1 : _resizingMainAxis l1 = true) by reflexivity.
  pose proof (crossPass_ownButCross (mainPass l1)) as Hc.
  pose proof (mainPass_own l1 (or_introl H1)) as Hm.
  assert (mainAxisSize (crossPass (mainPass l1)) = mainAxisSize l1)
    by (unfold ownButCross in Hc; unfold own in Hm; congruence).
  unfold l1 in *. rewrite mainAxisSize_set_get in *. assumption.
Qed.

(** A changed cross-axis resize ends on the requested size. *)
Lemma resizeCrossAxis_size (size : Z) (r : Run) :
  crossAxisSize (this (exec (resizeCrossAxis size) r)) = size.
Proof.
  rewrite exec_resizeCrossAxis. cbv zeta.
  change (crossAxisSize (with_resizingCrossAxis true (this r)))
    with (crossAxisSize (this r)).
  destruct (Z.eqb_spec (crossAxisSize (this r)) size) as [E|E];
    cbn [this]; [exact E|].
  set (l1 := crossAxisSize_set size (with_resizingCrossAxis true (this r))).
  change (crossAxisSize (crossPass l1) = size).
  assert (H1 : _resizingCrossAxis l1 = true) by reflexivity.
  pose proof (crossPass_own l1 (or_introl H1)) as Hc.
  assert (crossAxisSize (crossPass l1) = crossAxisSize l1)
    by (unfold own in Hc; congruence).
  unfold l1 in *. rewrite crossAxisSize_set_get in *. assumption.
Qed.

End FramedPasses.

(** A resize with the current size only lowers its flag. *)
Lemma resizeMainAxis_same {C : Collaborators} (size : Z) (r : Run) :
  mainAxisSize (this r) = size ->
  exec (resizeMainAxis size) r =
  mkRun (with_resizingMainAxis false (this r)) (log r).
Proof.
  intros H. rewrite exec_resizeMainAxis. cbv zeta.
  change (mainAxisSize (with_resizingMainAxis true (this r)))
    with (mainAxisSize (this r)).
  rewrite H, Z.eqb_refl. reflexivity.
Qed.

Lemma resizeCrossAxis_same {C : Collaborators} (size : Z) (r : Run) :
  crossAxisSize (this r) = size ->
  exec (resizeCrossAxis size) r =
  mkRun (with_resizingCrossAxis false (this r)) (log r).
Proof.
  intros H. rewrite exec_resizeCrossAxis. cbv zeta.
  change (crossAxisSize (with_resizingCrossAxis true (this r)))
    with (crossAxisSize (this r)).
  rewrite H, Z.eqb_refl. reflexivity.
Qed.

(** A resize leaves its flag lowered. *)
Lemma resizeMainAxis_flag {C : Collaborators} (size : Z) (r : Run) :
  with_resizingMainAxis false (this (exec (resizeMainAxis size) r)) =
  this (exec (resizeMainAxis size) r).
Proof.
  rewrite exec_resizeMainAxis. cbv zeta.
  destruct (_ =? size); reflexivity.
Qed.

Lemma resizeCrossAxis_flag {C : Collaborators} (size : Z) (r : Run) :
  with_resizingCrossAxis false (this (exec (resizeCrossAxis size) r)) =
  this (exec (resizeCrossAxis size) r).
Proof.
  rewrite exec_resizeCrossAxis. cbv zeta.
  destruct (_ =? size); reflexivity.
Qed.

(** C4, as the code has it.  A resize with the size the axis already has
    makes no collaborator call and changes nothing of the object but the
    resizing flag, which ends lowered: item, children and lines are as
    before; so do two such resizes in a row, which lay nothing out.  With
    collaborators that leave the container's own part alone, two resizes
    with one size do what one does: the layout work of the pair is that of
    the first call, one pass when the size differs from the size the axis
    had before the first call. *)
Theorem resize_idempotence {C : Collaborators} (size : Z) (r : Run) :
  (mainAxisSize (this r) = size ->
   exec (resizeMainAxis size) r =
     mkRun (with_resizingMainAxis false (this r)) (log r)) /\
  (crossAxisSize (this r) = size ->
   exec (resizeCrossAxis size) r =
     mkRun (with_resizingCrossAxis false (this r)) (log r)) /\
  (mainAxisSize (this r) = size ->
   exec (resizeMainAxis size ;; resizeMainAxis size) r =
     mkRun (with_resizingMainAxis false (this r)) (log r)) /\
  (crossAxisSize (this r) = size ->
   exec (resizeCrossAxis size ;; resizeCrossAxis size) r =
     mkRun (with_resizingCrossAxis false (this r)) (log r)) /\
  (Framed C ->
   exec (resizeMainAxis size ;; resizeMainAxis size) r =
     exec (resizeMainAxis size) r /\
   exec (resizeCrossAxis size ;; resizeCrossAxis size) r =
     exec (resizeCrossAxis size) r /\
   (mainAxisSize (this r) <> size ->
    calls (exec (resizeMainAxis size ;; resizeMainAxis size) r) =
      calls r ++ [CallLayoutLines; CallAlignerInit; CallAlignerAlign]) /\
   (crossAxisSize (this r) <> size ->
    calls (exec (resizeCrossAxis size ;; resizeCrossAxis size) r) =
      calls r ++ [CallAlignerInit; CallAlignerAlign])).
Proof.
  split; [apply resizeMainAxis_same|].
  split; [apply resizeCrossAxis_same|].
  split.
  { intros H. rewrite exec_bind, (resizeMainAxis_same size r H).
    rewrite resizeMainAxis_same; [reflexivity | exact H]. }
  split.
  { intros H. rewrite exec_bind, (resizeCrossAxis_same size r H).
    rewrite resizeCrossAxis_same; [reflexivity | exact H]. }
  intros F.
  assert (Hm : exec (resizeMainAxis size ;; resizeMainAxis size) r =
               exec (resizeMainAxis size) r).
  { rewrite exec_bind.
    rewrite (resizeMainAxis_same size _ (resizeMainAxis_size F size r)).
    rewrite resizeMainAxis_flag.
    destruct (exec (resizeMainAxis size) r); reflexivity. }
  assert (Hc : exec (resizeCrossAxis size ;; resizeCrossAxis size) r =
               exec (resizeCrossAxis size) r).
  { rewrite exec_bind.
    rewrite (resizeCrossAxis_same size _ (resizeCrossAxis_size F size r)).
    rewrite resizeCrossAxis_flag.
    destruct (exec (resizeCrossAxis size) r); reflexivity. }
  split; [exact Hm|]. split; [exact Hc|]. split.
  - intros H. rewrite Hm. rewrite exec_resizeMainAxis. cbv zeta.
    change (mainAxisSize (with_resizingMainAxis true (this r)))
      with (mainAxisSize (this r)).
    destruct (Z.eqb_spec (mainAxisSize (this r)) size); [contradiction|].
    unfold calls. cbn [log]. rewrite map_app. reflexivity.
  - intros H. rewrite Hc. rewrite exec_resizeCrossAxis. cbv zeta.
    change (crossAxisSize (with_resizingCrossAxis true (this r)))
      with (crossAxisSize (this r)).
    destruct (Z.eqb_spec (crossAxisSize (this r)) size); [contradiction|].
    unfold calls. cbn [log]. rewrite map_app. reflexivity.
Qed.

(** ** Entry points *)

(** C5.  [layoutTree] on an item with a flex parent clears the deferred flag
    and runs both passes from the sizes the object has: line layout is
    invoked on the object as it was but for the cleared flag, so with the
    current main-axis and cross-axis sizes.  Without a flex parent it runs
    [updateTreeLayout]: line layout is invoked on the object with the
    deferred flag cleared, the resizing flags lowered and both sizes taken
    from the basis.  Either way both passes run from there, the last call is
    the coordinates pass, on the object [align] left, and the object
    [layoutTree] ends with is the one the coordinates pass leaves. *)
Theorem layoutTree_dispatch {C : Collaborators} (r : Run) :
  let r' := exec layoutTree r in
  (flexParent (item (this r)) <> None ->
   r' = exec (_updateTreeLayoutWithCurrentAxes ;; updateItemCoords) r /\
   (exists l1 rest,
      log r' = log r ++ (CallLayoutLines, l1) :: rest /\
      mainAxisSize l1 = mainAxisSize (this r) /\
      crossAxisSize l1 = crossAxisSize (this r)) /\
   exists l2 l3 l4,
     bothPassesRun (with_deferLayout false (this r)) l2 l3 l4 /\
     log r' =
       log r ++ [(CallLayoutLines, with_deferLayout false (this r));
                 (CallAlignerInit, l2); (CallAlignerAlign, l3);
                 (CallFinalize, l4)] /\
     this r' = finalize l4) /\
  (flexParent (item (this r)) = None ->
   r' = exec (updateTreeLayout ;; updateItemCoords) r /\
   (exists l1 rest,
      log r' = log r ++ (CallLayoutLines, l1) :: rest /\
      mainAxisSize l1 = _getMainAxisBasis (this r) /\
      crossAxisSize l1 = _getCrossAxisBasis (this r)) /\
   exists l1 l2 l3 l4,
     l1 = this (exec _setInitialAxisSizes
                     (start (with_deferLayout false (this r)))) /\
     _deferLayout l1 = false /\
     _resizingMainAxis l1 = false /\ _resizingCrossAxis l1 = false /\
     mainAxisSize l1 = _getMainAxisBasis (this r) /\
     crossAxisSize l1 = _getCrossAxisBasis (this r) /\
     bothPassesRun l1 l2 l3 l4 /\
     log r' =
       log r ++ [(CallLayoutLines, l1); (CallAlignerInit, l2);
                 (CallAlignerAlign, l3); (CallFinalize, l4)] /\
     this r' = finalize l4) /\
  calls r' =
    calls r ++
    [CallLayoutLines; CallAlignerInit; CallAlignerAlign; CallFinalize] /\
  (exists before l2,
     log r' = before ++ [(CallFinalize, l2)] /\ this r' = finalize l2).
Proof.
  cbv zeta. split; [|split; [|split]].
  - intros H. split; [|split].
    + unfold layoutTree. run.
      destruct (flexParent (item (this r))); [reflexivity | contradiction].
    + rewrite exec_layoutTree. cbv zeta.
      destruct (flexParent (item (this r))); [|contradiction].
      eexists _, _. cbn [log]. unfold axesLog at 1.
      split; [reflexivity|]. split; reflexivity.
    + rewrite exec_layoutTree. cbv zeta.
      destruct (flexParent (item (this r))); [|contradiction].
      set (l1 := with_deferLayout false (this r)).
      exists (mainPass l1), (crossFitted (mainPass l1)),
        (crossPass (mainPass l1)).
      split; [apply bothPassesRun_passes|]. split; reflexivity.
  - intros H. split; [|split].
    + unfold layoutTree. run. rewrite H. reflexivity.
    + rewrite exec_layoutTree. cbv zeta. rewrite H.
      eexists _, _. cbn [log]. unfold axesLog at 1.
      split; [reflexivity|].
      split; [exact (initialSizes_main (with_deferLayout false (this r)))
             | exact (initialSizes_cross (with_deferLayout false (this r)))].
    + rewrite exec_layoutTree. cbv zeta. rewrite H.
      set (l0 := with_deferLayout false (this r)).
      set (l1 := initialSizes l0).
      destruct (initialSizes_config l0) as (_ & _ & _ & _ & Hm & Hc & Hd).
      exists l1, (mainPass l1), (crossFitted (mainPass l1)),
        (crossPass (mainPass l1)).
      split; [rewrite exec_setInitialAxisSizes; reflexivity|].
      split; [exact Hd|]. split; [exact Hm|]. split; [exact Hc|].
      split; [exact (initialSizes_main l0)|].
      split; [exact (initialSizes_cross l0)|].
      split; [apply bothPassesRun_passes|]. split; reflexivity.
  - rewrite exec_layoutTree. cbv zeta. unfold calls. cbn [log].
    rewrite !map_app. reflexivity.
  - rewrite exec_layoutTree. cbv zeta. cbn [log this].
    eexists _, _. split; [|reflexivity]. rewrite app_assoc. reflexivity.
Qed.

(** C6.  [updateTreeLayout] makes three collaborator calls, in this order:
    line layout, on an object whose deferred flag is cleared, whose resizing
    flags are lowered and whose two sizes are the configured bases; the
    aligner's [init], on the object main-axis layout ended with; and the
    aligner's [align].  The object it ends with is the one cross-axis layout
    leaves when started on the result of main-axis layout. *)
Theorem updateTreeLayout_order {C : Collaborators} (r : Run) :
  exists l1 l2 l3,
    log (exec updateTreeLayout r) =
      log r ++ [(CallLayoutLines, l1); (CallAlignerInit, l2);
                (CallAlignerAlign, l3)] /\
    _deferLayout l1 = false /\
    _resizingMainAxis l1 = false /\ _resizingCrossAxis l1 = false /\
    mainAxisSize l1 = _getMainAxisBasis (this r) /\
    crossAxisSize l1 = _getCrossAxisBasis (this r) /\
    l2 = this (exec _layoutMainAxis (start l1)) /\
    this (exec updateTreeLayout r) = this (exec _layoutCrossAxis (start l2)).
Proof.
  rewrite exec_updateTreeLayout. cbv zeta. cbn [log this].
  set (l1 := initialSizes (with_deferLayout false (this r))).
  exists l1, (mainPass l1), (crossFitted (mainPass l1)).
  destruct (initialSizes_config (with_deferLayout false (this r)))
    as (_ & _ & _ & _ & Hm & Hc & Hd).
  split; [reflexivity|].
  split; [exact Hd|]. split; [exact Hm|]. split; [exact Hc|].
  split; [exact (initialSizes_main (with_deferLayout false (this r)))|].
  split; [exact (initialSizes_cross (with_deferLayout false (this r)))|].
  split.
  - rewrite exec_layoutMainAxis. reflexivity.
  - rewrite exec_layoutCrossAxis. reflexivity.
Qed.

(** ** Minimum sizes *)

(** C7.  On a deferred container [getAxisMinSize], for either axis, does
    what one [updateTreeLayout] does, calls included, and returns the
    minimum size of the queried axis as the line layouter holds it after
    that update: the value read directly after [updateTreeLayout]. *)
Theorem deferred_min_size {C : Collaborators} (horizontal : bool) (r : Run) :
  isLayoutDeferred (this r) = true ->
  let updated := exec updateTreeLayout r in
  exec (getAxisMinSize horizontal) r = updated /\
  calls updated =
    calls r ++ [CallLayoutLines; CallAlignerInit; CallAlignerAlign] /\
  result (getAxisMinSize horizontal) r =
    (if Bool.eqb (_horizontal (this r)) horizontal
     then mainAxisMinSize (_lineLayouter (this updated))
     else crossAxisMinSize (_lineLayouter (this updated))).
Proof.
  intros H. cbv zeta. split; [|split].
  - rewrite exec_getAxisMinSize, H. reflexivity.
  - rewrite exec_updateTreeLayout. cbv zeta. unfold calls. cbn [log].
    rewrite map_app. reflexivity.
  - unfold getAxisMinSize. run.
    destruct (Bool.eqb (_horizontal (this r)) horizontal).
    + rewrite result_getMainAxisMinSize, exec_getMainAxisMinSize, H.
      reflexivity.
    + rewrite result_getCrossAxisMinSize, exec_getCrossAxisMinSize, H.
      reflexivity.
Qed.

(** C10.  [getAxisMinSize] answers with the main-axis minimum size when the
    queried orientation is the container's own, and with the cross-axis
    minimum size otherwise: a row answers the main-axis minimum for
    [horizontal = true], a column for [horizontal = false].  The value is the
    line layouter's minimum for that axis once the query is done. *)
Theorem getAxisMinSize_dispatch {C : Collaborators} (horizontal : bool)
        (r : Run) :
  (horizontal = _horizontal (this r) ->
   runState (getAxisMinSize horizontal) r = runState _getMainAxisMinSize r /\
   result (getAxisMinSize horizontal) r =
     mainAxisMinSize
       (_lineLayouter (this (exec (getAxisMinSize horizontal) r)))) /\
  (horizontal <> _horizontal (this r) ->
   runState (getAxisMinSize horizontal) r = runState _getCrossAxisMinSize r /\
   result (getAxisMinSize horizontal) r =
     crossAxisMinSize
       (_lineLayouter (this (exec (getAxisMinSize horizontal) r)))).
Proof.
  assert (E : forall b,
             Bool.eqb (_horizontal (this r)) horizontal = b ->
             runState (getAxisMinSize horizontal) r =
             runState (if b then _getMainAxisMinSize
                       else _getCrossAxisMinSize) r).
  { intros b <-. rewrite !run_exec_result. unfold getAxisMinSize. run.
    reflexivity. }
  split; intros H.
  - assert (Hb : Bool.eqb (_horizontal (this r)) horizontal = true)
      by (rewrite H; apply Bool.eqb_reflx).
    pose proof (E _ Hb) as Hrun. split; [exact Hrun|].
    unfold result, exec. rewrite Hrun.
    apply result_getMainAxisMinSize.
  - assert (Hb : Bool.eqb (_horizontal (this r)) horizontal = false).
    { apply Bool.eqb_false_iff. congruence. }
    pose proof (E _ Hb) as Hrun. split; [exact Hrun|].
    unfold result, exec. rewrite Hrun.
    apply result_getCrossAxisMinSize.
Qed.

(** ** Fixed basis *)

Lemma fixed_main_not_fit (l : FlexLayout) :
  _getMainAxisBasis l <> 0 -> isMainAxisFitToContents l = false.
Proof.
  intros H. unfold isMainAxisFitToContents, _hasFixedMainAxisBasis.
  destruct (Z.eqb_spec (_getMainAxisBasis l) 0); [contradiction|].
  apply andb_false_r.
Qed.

Lemma fixed_cross_not_fit (l : FlexLayout) :
  _getCrossAxisBasis l <> 0 -> isCrossAxisFitToContents l = false.
Proof.
  intros H. unfold isCrossAxisFitToContents, _hasFixedCrossAxisBasis.
  destruct (Z.eqb_spec (_getCrossAxisBasis l) 0); [contradiction|reflexivity].
Qed.

Section FixedBasis.

Context {C : Collaborators} (F : Framed C).

Lemma axes_main_fixed (l : FlexLayout) :
  _getMainAxisBasis l <> 0 ->
  mainAxisSize (crossPass (mainPass l)) = mainAxisSize l.
Proof.
  intros H.
  pose proof (mainPass_own F l (or_intror (fixed_main_not_fit l H))) as Hm.
  pose proof (crossPass_ownButCross F (mainPass l)) as Hc.
  unfold own in Hm. unfold ownButCross in Hc. congruence.
Qed.

Lemma axes_cross_fixed (l : FlexLayout) :
  _getCrossAxisBasis l <> 0 ->
  crossAxisSize (crossPass (mainPass l)) = crossAxisSize l.
Proof.
  intros H.
  pose proof (mainPass_ownButMain F l) as Hm. unfold ownButMain in Hm.
  assert (Hb : _getCrossAxisBasis (mainPass l) <> 0) by congruence.
  pose proof (crossPass_own F (mainPass l)
                (or_intror (fixed_cross_not_fit _ Hb))) as Hc.
  unfold own in Hc. congruence.
Qed.

Lemma finalize_sizes (l : FlexLayout) :
  mainAxisSize (finalize l) = mainAxisSize l /\
  crossAxisSize (finalize l) = crossAxisSize l.
Proof.
  pose proof (finalize_own C F l) as H. unfold own in H.
  split; congruence.
Qed.

End FixedBasis.

(** C8, as the code has it.  With collaborators that leave the container's
    own part alone, and a non-zero basis on an axis: [updateTreeLayout], and
    [layoutTree] on an item without a flex parent, end with the resolved
    size on that axis equal to the basis, whatever the content; [layoutTree]
    on an item with a flex parent, and the two fit steps, end with the size
    the axis had before. *)
Theorem fixed_basis_stability {C : Collaborators} (r : Run) :
  Framed C ->
  (_getMainAxisBasis (this r) <> 0 ->
   mainAxisSize (this (exec updateTreeLayout r)) = _getMainAxisBasis (this r) /\
   (flexParent (item (this r)) = None ->
    mainAxisSize (this (exec layoutTree r)) = _getMainAxisBasis (this r)) /\
   (flexParent (item (this r)) <> None ->
    mainAxisSize (this (exec layoutTree r)) = mainAxisSize (this r)) /\
   mainAxisSize (this (exec _fitMainAxisSizeToContents r)) =
     mainAxisSize (this r) /\
   mainAxisSize (this (exec _fitCrossAxisSizeToContents r)) =
     mainAxisSize (this r)) /\
  (_getCrossAxisBasis (this r) <> 0 ->
   crossAxisSize (this (exec updateTreeLayout r)) =
     _getCrossAxisBasis (this r) /\
   (flexParent (item (this r)) = None ->
    crossAxisSize (this (exec layoutTree r)) = _getCrossAxisBasis (this r)) /\
   (flexParent (item (this r)) <> None ->
    crossAxisSize (this (exec layoutTree r)) = crossAxisSize (this r)) /\
   crossAxisSize (this (exec _fitMainAxisSizeToContents r)) =
     crossAxisSize (this r) /\
   crossAxisSize (this (exec _fitCrossAxisSizeToContents r)) =
     crossAxisSize (this r)).
Proof.
  intros F.
  set (l0 := with_deferLayout false (this r)).
  destruct (initialSizes_config l0) as (_ & _ & Hbm & Hbc & _).
  split; intros H.
  - assert (Hi : _getMainAxisBasis (initialSizes l0) <> 0)
      by (rewrite Hbm; exact H).
    assert (Hu : mainAxisSize (crossPass (mainPass (initialSizes l0))) =
                 _getMainAxisBasis (this r)).
    { rewrite (axes_main_fixed F _ Hi). exact (initialSizes_main l0). }
    split; [|split; [|split; [|split]]].
    + rewrite exec_updateTreeLayout. exact Hu.
    + intros Hp. rewrite exec_layoutTree. cbv zeta. rewrite Hp. cbn [this].
      rewrite (proj1 (finalize_sizes F _)). exact Hu.
    + intros Hp. rewrite exec_layoutTree. cbv zeta.
      destruct (flexParent (item (this r))); [|contradiction]. cbn [this].
      rewrite (proj1 (finalize_sizes F _)).
      exact (axes_main_fixed F l0 H).
    + rewrite exec_fitMain. cbn [this]. unfold fitMain.
      rewrite (fixed_main_not_fit _ H).
      destruct (negb (_resizingMainAxis (this r))); reflexivity.
    + rewrite exec_fitCross. cbn [this]. unfold fitCross.
      destruct (negb (_resizingCrossAxis (this r))); [|reflexivity].
      destruct (isCrossAxisFitToContents (this r)); [|reflexivity].
      pose proof (crossAxisSize_set_ownButCross
                    (_totalCrossAxisSize (this r)) (this r)) as Hs.
      unfold ownButCross in Hs. congruence.
  - assert (Hi : _getCrossAxisBasis (initialSizes l0) <> 0)
      by (rewrite Hbc; exact H).
    assert (Hu : crossAxisSize (crossPass (mainPass (initialSizes l0))) =
                 _getCrossAxisBasis (this r)).
    { rewrite (axes_cross_fixed F _ Hi). exact (initialSizes_cross l0). }
    split; [|split; [|split; [|split]]].
    + rewrite exec_updateTreeLayout. exact Hu.
    + intros Hp. rewrite exec_layoutTree. cbv zeta. rewrite Hp. cbn [this].
      rewrite (proj2 (finalize_sizes F _)). exact Hu.
    + intros Hp. rewrite exec_layoutTree. cbv zeta.
      destruct (flexParent (item (this r))); [|contradiction]. cbn [this].
      rewrite (proj2 (finalize_sizes F _)).
      exact (axes_cross_fixed F l0 H).
    + rewrite exec_fitMain. cbn [this]. unfold fitMain.
      destruct (negb (_resizingMainAxis (this r))); [|reflexivity].
      destruct (isMainAxisFitToContents (this r)); [|reflexivity].
      pose proof (mainAxisSize_set_ownButMain
                    (mainAxisContentSize (_lineLayouter (this r))) (this r))
        as Hs.
      unfold ownButMain in Hs. congruence.
    + rewrite exec_fitCross. cbn [this]. unfold fitCross.
      rewrite (fixed_cross_not_fit _ H).
      destruct (negb (_resizingCrossAxis (this r))); reflexivity.
Qed.

(** ** Non-negative sizes *)

Lemma nonNegative_sizes (l : FlexLayout) :
  nonNegative l ->
  0 <= mainAxisSize l /\ 0 <= crossAxisSize l /\
  0 <= _getMainAxisBasis l /\ 0 <= _getCrossAxisBasis l.
Proof.
  destruct l as [[i w h rv] ll a b d t].
  unfold nonNegative, mainAxisSize, crossAxisSize, _getMainAxisBasis,
    _getCrossAxisBasis.
  destruct h; cbn; intuition.
Qed.

Section Sound.

Variable K : list FlexTarget -> LineLayouter -> Prop.

Lemma sound_mainAxisSize_set (v : Z) (l : FlexLayout) :
  0 <= v -> sound K l -> sound K (mainAxisSize_set v l).
Proof.
  destruct l as [[i w h rv] ll a b d t].
  unfold sound, nonNegative, mainAxisSize_set.
  destruct h; cbn; intuition.
Qed.

Lemma sound_crossAxisSize_set (v : Z) (l : FlexLayout) :
  0 <= v -> sound K l -> sound K (crossAxisSize_set v l).
Proof.
  destruct l as [[i w h rv] ll a b d t].
  unfold sound, nonNegative, crossAxisSize_set.
  destruct h; cbn; intuition.
Qed.

Lemma sound_initialSizes (l : FlexLayout) :
  sound K l -> sound K (initialSizes l).
Proof.
  intros H. unfold initialSizes.
  change (sound K
            (crossAxisSize_set
               (_getCrossAxisBasis
                  (mainAxisSize_set (_getMainAxisBasis l) l))
               (mainAxisSize_set (_getMainAxisBasis l) l))).
  destruct (nonNegative_sizes l (proj1 H)) as (_ & _ & Hm & _).
  pose proof (sound_mainAxisSize_set _ l Hm H) as H1.
  destruct (nonNegative_sizes _ (proj1 H1)) as (_ & _ & _ & Hc).
  exact (sound_crossAxisSize_set _ _ Hc H1).
Qed.

Context {C : Collaborators} (Mz : Measuring C K).

Lemma sound_mainPass (l : FlexLayout) : sound K l -> sound K (mainPass l).
Proof.
  intros H. destruct (layoutLines_sound C K Mz l H) as [H1 H2].
  unfold mainPass, fitMain.
  destruct (negb (_resizingMainAxis (layoutLines l))); [|exact H1].
  destruct (isMainAxisFitToContents (layoutLines l)); [|exact H1].
  apply sound_mainAxisSize_set; assumption.
Qed.

Lemma sound_crossPass (l : FlexLayout) : sound K l -> sound K (crossPass l).
Proof.
  intros H. destruct (alignerInit_sound C K Mz l H) as [H1 H2].
  unfold crossPass. apply (alignerAlign_sound C K Mz).
  unfold crossFitted, fitCross, crossMeasured.
  set (l1 := with_totalCrossAxisSize _ _).
  assert (S1 : sound K l1) by exact H1.
  destruct (negb (_resizingCrossAxis l1)); [|exact S1].
  destruct (isCrossAxisFitToContents l1); [|exact S1].
  apply sound_crossAxisSize_set; assumption.
Qed.

Lemma sound_updateTreeLayout (r : Run) :
  sound K (this r) -> sound K (this (exec updateTreeLayout r)).
Proof.
  intros H. rewrite exec_updateTreeLayout. cbv zeta. cbn [this].
  apply sound_crossPass, sound_mainPass, sound_initialSizes. exact H.
Qed.

(** Every public operation keeps [sound], when a resize is given a size
    that is not negative. *)
Lemma sound_perform (o : Op) (r : Run) :
  nonNegativeArgs [o] ->
  sound K (this r) -> sound K (this (exec (perform o) r)).
Proof.
  intros Ha H. apply Forall_inv in Ha.
  destruct o as [ | | size | size | horizontal | ]; unfold perform.
  - rewrite exec_layoutTree. cbv zeta. cbn [this].
    apply (finalize_sound C K Mz), sound_crossPass, sound_mainPass.
    destruct (flexParent (item (this r)));
      [exact H | apply sound_initialSizes; exact H].
  - apply sound_updateTreeLayout. exact H.
  - rewrite exec_resizeMainAxis. cbv zeta.
    destruct (_ =? size); cbn [this]; [exact H|].
    change (sound K (crossPass (mainPass
              (mainAxisSize_set size
                 (with_resizingMainAxis true (this r)))))).
    apply sound_crossPass, sound_mainPass, sound_mainAxisSize_set;
      [exact Ha | exact H].
  - rewrite exec_resizeCrossAxis. cbv zeta.
    destruct (_ =? size); cbn [this]; [exact H|].
    change (sound K (crossPass
              (crossAxisSize_set size
                 (with_resizingCrossAxis true (this r))))).
    apply sound_crossPass, sound_crossAxisSize_set; [exact Ha | exact H].
  - rewrite exec_bind, exec_skip, exec_getAxisMinSize.
    destruct (isLayoutDeferred (this r));
      [apply sound_updateTreeLayout; exact H | exact H].
  - rewrite exec_deferLayout. cbv zeta. cbn [this].
    apply (mustUpdateDeferred_sound C K Mz).
    apply (resetNonFlexLayout_sound C K Mz (with_deferLayout true (this r))).
    exact H.
Qed.

Lemma sound_performAll (os : list Op) (r : Run) :
  nonNegativeArgs os ->
  sound K (this r) -> sound K (this (exec (performAll os) r)).
Proof.
  revert r. induction os as [|o os IH]; intros r Ha H.
  - exact H.
  - cbn [performAll]. rewrite exec_bind.
    apply IH; [exact (Forall_inv_tail Ha)|].
    apply sound_perform; [|exact H].
    constructor; [exact (Forall_inv Ha) | constructor].
Qed.

End Sound.

(** C9, as the code has it.  Nothing in the layouter clamps a size; sizes
    stay non-negative when nothing negative comes in.  Starting from
    configured and resolved sizes that are not negative, with collaborators
    that keep them so and report content sizes that are not negative, the
    resolved main-axis and cross-axis sizes are not negative after any
    sequence of public operations whose resize arguments are not negative. *)
Theorem sizes_nonNegative {C : Collaborators}
        (K : list FlexTarget -> LineLayouter -> Prop)
        (os : list Op) (r : Run) :
  Measuring C K ->
  nonNegativeArgs os ->
  sound K (this r) ->
  0 <= mainAxisSize (this (exec (performAll os) r)) /\
  0 <= crossAxisSize (this (exec (performAll os) r)).
Proof.
  intros Mz Ha H.
  destruct (nonNegative_sizes _ (proj1 (sound_performAll K Mz os r Ha H)))
    as (Hm & Hc & _).
  split; assumption.
Qed.

(** ** The reference collaborators are framed and measuring *)

Lemma Reference_framed : Framed Reference.collaborators.
Proof.
  constructor; intros; reflexivity.
Qed.

Lemma maxZ_nonNegative (l : list Z) : 0 <= Reference.maxZ l.
Proof.
  induction l as [|a l IH]; [reflexivity|].
  change (0 <= Z.max a (Reference.maxZ l)). lia.
Qed.

Lemma sumZ_nonNegative (l : list Z) :
  Forall (fun z => 0 <= z) l -> 0 <= Reference.sumZ l.
Proof.
  induction 1 as [|a l Ha _ IH]; [reflexivity|].
  change (0 <= a + Reference.sumZ l). lia.
Qed.

Lemma buildLines_cross (wrap : bool) (avail : Z) (ms : list Reference.Measured) :
  forall cur : option FlexLine,
    match cur with
    | Some ln => 0 <= lineCrossAxisSize ln
    | None => True
    end ->
    Forall (fun ln => 0 <= lineCrossAxisSize ln)
           (Reference.buildLines wrap avail cur ms).
Proof.
  induction ms as [|m ms IH]; intros cur Hcur; cbn [Reference.buildLines].
  - destruct cur; repeat constructor; assumption.
  - assert (Hs : 0 <= lineCrossAxisSize (Reference.startLine m))
      by (change (0 <= Z.max 0 (Reference.crossSz m)); lia).
    destruct cur as [ln|]; [|apply IH; exact Hs].
    destruct (wrap && (avail <? lineMainAxisSize ln + Reference.mainSz m)).
    + constructor; [exact Hcur | apply IH; exact Hs].
    + apply IH.
      change (0 <= Z.max (lineCrossAxisSize ln) (Reference.crossSz m)). lia.
Qed.

Lemma stackLines_cross (lns : list FlexLine) :
  forall pos : Z,
    Forall (fun ln => 0 <= lineCrossAxisSize ln) lns ->
    Forall (fun ln => 0 <= lineCrossAxisSize ln)
           (Reference.stackLines pos lns).
Proof.
  induction lns as [|ln lns IH]; intros pos H; cbn [Reference.stackLines].
  - constructor.
  - constructor; [exact (Forall_inv H) | apply IH; exact (Forall_inv_tail H)].
Qed.

Lemma Reference_measuring :
  Measuring Reference.collaborators Reference.linesMeasured.
Proof.
  constructor.
  - intros l [Hn _]. split; [split; [exact Hn|] |].
    + apply buildLines_cross. exact I.
    + apply maxZ_nonNegative.
  - intros l [Hn Hk]. split; [split; assumption|].
    apply sumZ_nonNegative, Forall_map. exact Hk.
  - intros a l [Hn Hk]. split; [exact Hn|].
    apply stackLines_cross. exact Hk.
  - intros l [Hn Hk]. split; assumption.
  - intros l [Hn Hk]. split; [|exact Hk].
    destruct Hn as (Hw & Hh & _). repeat split; assumption.
  - intros l [Hn Hk]. split; assumption.
Qed.

(** ** The results on the sample containers *)

(** The row fits its main axis to the 15 units of its boxes; the wrapping
    row is left as line layout found it. *)
Lemma main_axis_fit_guard_witness :
  mainAxisSize
    (this (Sample.run (@_layoutMainAxis Reference.collaborators) Sample.row))
  = 15 /\
  this (Sample.run (@_layoutMainAxis Reference.collaborators) Sample.wrapped)
  = Reference.layoutLines Sample.wrapped.
Proof.
  split.
  - refine (proj2 (proj1 (proj2
      (@main_axis_fit_guard Reference.collaborators (start Sample.row))) _)).
    vm_compute. auto.
  - refine (proj2 (proj2
      (@main_axis_fit_guard Reference.collaborators (start Sample.wrapped)))
      _).
    vm_compute. intros (_ & H & _). discriminate H.
Defined.

(** The wrapping row, before it is given a main-axis size, has one box per
    line and fits its cross axis to the 9 units of its three lines; the
    column, of cross-axis basis 20, keeps the object [init] left. *)
Lemma cross_axis_fit_guard_witness :
  (exists l2,
     crossAxisSize l2 = 9 /\
     log (exec (@_layoutCrossAxis Reference.collaborators)
               (Sample.run (@_layoutMainAxis Reference.collaborators)
                           Sample.wrapped))
     = log (Sample.run (@_layoutMainAxis Reference.collaborators)
                       Sample.wrapped)
       ++ [(CallAlignerInit,
            this (Sample.run (@_layoutMainAxis Reference.collaborators)
                             Sample.wrapped));
           (CallAlignerAlign, l2)]) /\
  (exists l2,
     crossAxisSize l2 = 0 /\
     this (Sample.run (@_layoutCrossAxis Reference.collaborators)
                      Sample.column)
     = Reference.alignerAlign
         (fst (Reference.alignerInit Sample.column)) l2).
Proof.
  split.
  - destruct (@cross_axis_fit_guard Reference.collaborators
                (Sample.run (@_layoutMainAxis Reference.collaborators)
                            Sample.wrapped))
      as (l2 & Hlog & _ & Hfit & _).
    exists l2. split; [|exact Hlog].
    match type of Hfit with
    | ?E -> _ => assert (HE : E) by (vm_compute; auto)
    end.
    etransitivity; [exact (proj2 (Hfit HE)) | vm_compute; reflexivity].
  - destruct (@cross_axis_fit_guard Reference.collaborators
                (start Sample.column))
      as (l2 & _ & Hthis & _ & Hkeep).
    exists l2. split; [|exact Hthis].
    rewrite Hkeep; [reflexivity|].
    vm_compute. intros (_ & H). discriminate H.
Defined.

(** The wrapping row, laid out at 10 by 6 in two lines.  Resized to 5
    along, it is laid out anew in three lines, 9 across; resized to 9
    across, it keeps its two lines and its 10 along. *)
Lemma resize_scope_witness :
  calls (exec (@resizeMainAxis Reference.collaborators 5)
              (start Sample.laid))
  = [CallLayoutLines; CallAlignerInit; CallAlignerAlign] /\
  calls (exec (@resizeCrossAxis Reference.collaborators 9)
              (start Sample.laid))
  = [CallAlignerInit; CallAlignerAlign] /\
  (exists l,
     this (exec (@resizeMainAxis Reference.collaborators 5)
                (start Sample.laid)) = l /\
     mainAxisSize l = 5 /\ crossAxisSize l = 9 /\
     length (Getters._lines l) = 3%nat /\ resizingMainAxis l = false) /\
  (exists l,
     this (exec (@resizeCrossAxis Reference.collaborators 9)
                (start Sample.laid)) = l /\
     mainAxisSize l = 10 /\ crossAxisSize l = 9 /\
     length (Getters._lines l) = 2%nat /\ resizingCrossAxis l = false).
Proof.
  assert (Hm : mainAxisSize (this (start Sample.laid)) <> 5)
    by (vm_compute; discriminate).
  assert (Hc : crossAxisSize (this (start Sample.laid)) <> 9)
    by (vm_compute; discriminate).
  destruct (proj1 (@resize_scope Reference.collaborators 5
                     (start Sample.laid)) Hm)
    as (Hcalls & _ & l2 & l3 & l4 & (E2 & E3 & E4) & _ & Hthis & _).
  destruct (proj2 (@resize_scope Reference.collaborators 9
                     (start Sample.laid)) Hc)
    as (Hcalls' & _ & l3' & l4' & (E3' & E4') & _ & Hthis' & _).
  split; [exact Hcalls|]. split; [exact Hcalls'|]. split.
  - eexists. split; [exact Hthis|].
    subst l4 l3 l2. vm_compute. repeat split.
  - eexists. split; [exact Hthis'|].
    subst l4' l3'. vm_compute. repeat split.
Defined.

(** The wrapping row, laid out at 10 by 6: resizing to 10 along or to 6
    across, once or twice, calls nothing; resizing twice to 5 along, or
    twice to 9 across, makes one pass. *)
Lemma resize_idempotence_witness :
  log (exec (@resizeMainAxis Reference.collaborators 10) (start Sample.laid))
  = [] /\
  log (exec (@resizeCrossAxis Reference.collaborators 6) (start Sample.laid))
  = [] /\
  log (exec (@resizeMainAxis Reference.collaborators 10 ;;
             @resizeMainAxis Reference.collaborators 10) (start Sample.laid))
  = [] /\
  log (exec (@resizeCrossAxis Reference.collaborators 6 ;;
             @resizeCrossAxis Reference.collaborators 6) (start Sample.laid))
  = [] /\
  calls (exec (@resizeMainAxis Reference.collaborators 5 ;;
               @resizeMainAxis Reference.collaborators 5) (start Sample.laid))
  = [CallLayoutLines; CallAlignerInit; CallAlignerAlign] /\
  calls (exec (@resizeCrossAxis Reference.collaborators 9 ;;
               @resizeCrossAxis Reference.collaborators 9) (start Sample.laid))
  = [CallAlignerInit; CallAlignerAlign].
Proof.
  assert (Em : mainAxisSize (this (start Sample.laid)) = 10)
    by (vm_compute; reflexivity).
  assert (Ec : crossAxisSize (this (start Sample.laid)) = 6)
    by (vm_compute; reflexivity).
  destruct (@resize_idempotence Reference.collaborators 10
              (start Sample.laid)) as (Hm & _ & Hmm & _).
  destruct (@resize_idempotence Reference.collaborators 6
              (start Sample.laid)) as (_ & Hc & _ & Hcc & _).
  destruct (@resize_idempotence Reference.collaborators 5
              (start Sample.laid)) as (_ & _ & _ & _ & Hm2).
  destruct (Hm2 Reference_framed) as (_ & _ & Hm3 & _).
  destruct (@resize_idempotence Reference.collaborators 9
              (start Sample.laid)) as (_ & _ & _ & _ & Hc2).
  destruct (Hc2 Reference_framed) as (_ & _ & _ & Hc3).
  split; [rewrite (Hm Em); reflexivity|].
  split; [rewrite (Hc Ec); reflexivity|].
  split; [rewrite (Hmm Em); reflexivity|].
  split; [rewrite (Hcc Ec); reflexivity|].
  split.
  - apply Hm3. vm_compute. discriminate.
  - apply Hc3. vm_compute. discriminate.
Defined.

(** C4 fails as stated: the wrapping row is 10 along once laid out, and two
    calls of [resizeMainAxis(10)] lay nothing out, where the claim has
    layout work exactly once. *)
Lemma resize_idempotence_counterexample :
  mainAxisSize (this (start Sample.laid)) = 10 /\
  calls (exec (@resizeMainAxis Reference.collaborators 10 ;;
               @resizeMainAxis Reference.collaborators 10) (start Sample.laid))
  = [] /\
  ~ In CallLayoutLines
       (calls (exec (@resizeMainAxis Reference.collaborators 10 ;;
                     @resizeMainAxis Reference.collaborators 10)
                    (start Sample.laid))).
Proof.
  vm_compute. split; [reflexivity|]. split; [reflexivity|]. intros [].
Qed.

(** The shrunk item, deferred, is laid out at the 80 its parent gave it, in
    one line 20 high; the row, deferred and without flex parent, from its
    bases, and so to its content: 15 by 4.  Both end not deferred. *)
Lemma layoutTree_dispatch_witness :
  Sample.run (@layoutTree Reference.collaborators) (with_deferLayout true Sample.shrunk)
  = Sample.run (@_updateTreeLayoutWithCurrentAxes Reference.collaborators ;;
                @updateItemCoords Reference.collaborators) (with_deferLayout true Sample.shrunk) /\
  Sample.run (@layoutTree Reference.collaborators) (with_deferLayout true Sample.row)
  = Sample.run (@updateTreeLayout Reference.collaborators ;;
                @updateItemCoords Reference.collaborators) (with_deferLayout true Sample.row) /\
  (exists l,
     this (Sample.run (@layoutTree Reference.collaborators) (with_deferLayout true Sample.shrunk))
     = l /\
     isLayoutDeferred l = false /\ mainAxisSize l = 80 /\
     crossAxisSize l = 20 /\ length (Getters._lines l) = 1%nat) /\
  (exists l,
     this (Sample.run (@layoutTree Reference.collaborators) (with_deferLayout true Sample.row)) = l /\
     isLayoutDeferred l = false /\ mainAxisSize l = 15 /\
     crossAxisSize l = 4 /\ length (Getters._lines l) = 1%nat).
Proof.
  assert (Hs : flexParent (item (this (start (with_deferLayout true Sample.shrunk)))) <> None)
    by (vm_compute; discriminate).
  assert (Hr : flexParent (item (this (start (with_deferLayout true Sample.row)))) = None)
    by (vm_compute; reflexivity).
  destruct (proj1 (@layoutTree_dispatch Reference.collaborators
                     (start (with_deferLayout true Sample.shrunk))) Hs)
    as (Hrun & _ & l2 & l3 & l4 & (E2 & E3 & E4) & _ & Hthis).
  destruct (proj1 (proj2 (@layoutTree_dispatch Reference.collaborators
                            (start (with_deferLayout true Sample.row)))) Hr)
    as (Hrun' & _ & l1' & l2' & l3' & l4' & E1' & _ & _ & _ & _ & _
        & (E2' & E3' & E4') & _ & Hthis').
  split; [exact Hrun|]. split; [exact Hrun'|]. split.
  - eexists. split; [exact Hthis|].
    subst l4 l3 l2. vm_compute. repeat split.
  - eexists. split; [exact Hthis'|].
    subst l4' l3' l2' l1'. vm_compute. repeat split.
Defined.

(** The row, deferred: its minimum sizes are 15 along and 4 across. *)
Lemma deferred_min_size_witness :
  isLayoutDeferred
    (this (Sample.run (@deferLayout Reference.collaborators) Sample.row))
  = true /\
  result (@getAxisMinSize Reference.collaborators true)
         (Sample.run (@deferLayout Reference.collaborators) Sample.row) = 15 /\
  result (@getAxisMinSize Reference.collaborators false)
         (Sample.run (@deferLayout Reference.collaborators) Sample.row) = 4.
Proof.
  assert (H : isLayoutDeferred
                (this (Sample.run (@deferLayout Reference.collaborators)
                                  Sample.row)) = true)
    by (vm_compute; reflexivity).
  split; [exact H|]. split.
  - rewrite (proj2 (proj2 (@deferred_min_size Reference.collaborators true
                             _ H))).
    vm_compute. reflexivity.
  - rewrite (proj2 (proj2 (@deferred_min_size Reference.collaborators false
                             _ H))).
    vm_compute. reflexivity.
Defined.

(** The wrapping row keeps its main-axis basis 10, the column its bases 40
    and 20, and the shrunk item the 80 of its parent. *)
Lemma fixed_basis_stability_witness :
  mainAxisSize
    (this (Sample.run (@updateTreeLayout Reference.collaborators)
                      Sample.wrapped)) = 10 /\
  mainAxisSize
    (this (Sample.run (@layoutTree Reference.collaborators) Sample.column))
  = 40 /\
  crossAxisSize
    (this (Sample.run (@layoutTree Reference.collaborators) Sample.column))
  = 20 /\
  mainAxisSize
    (this (Sample.run (@layoutTree Reference.collaborators) Sample.shrunk))
  = 80.
Proof.
  destruct (@fixed_basis_stability Reference.collaborators
              (start Sample.wrapped) Reference_framed) as [Hw _].
  destruct (@fixed_basis_stability Reference.collaborators
              (start Sample.column) Reference_framed) as [Hcm Hcc].
  destruct (@fixed_basis_stability Reference.collaborators
              (start Sample.shrunk) Reference_framed) as [Hs _].
  split; [|split; [|split]].
  - refine (proj1 (Hw _)). vm_compute. discriminate.
  - refine (proj1 (proj2 (Hcm _)) _); vm_compute;
      [discriminate | reflexivity].
  - refine (proj1 (proj2 (Hcc _)) _); vm_compute;
      [discriminate | reflexivity].
  - refine (proj1 (proj2 (proj2 (Hs _))) _); vm_compute; discriminate.
Defined.

(** C8 fails as stated: the shrunk item has main-axis basis 100, and
    [layoutTree] leaves it at the 80 its parent gave it. *)
Lemma fixed_basis_counterexample :
  _getMainAxisBasis Sample.shrunk = 100 /\
  flexParent (item Sample.shrunk) = Some 7%nat /\
  mainAxisSize
    (this (Sample.run (@layoutTree Reference.collaborators) Sample.shrunk))
  = 80 /\
  mainAxisSize
    (this (Sample.run (@layoutTree Reference.collaborators) Sample.shrunk))
  <> _getMainAxisBasis Sample.shrunk.
Proof. vm_compute. repeat split. discriminate. Qed.

(** Sizes stay non-negative through a sequence of all six operations. *)
Lemma sizes_nonNegative_witness :
  0 <= mainAxisSize
         (this (Sample.run
                  (@performAll Reference.collaborators
                     [OpUpdateTreeLayout; OpResizeMainAxis 7; OpDeferLayout;
                      OpGetAxisMinSize true; OpResizeCrossAxis 0;
                      OpLayoutTree])
                  Sample.row)) /\
  0 <= crossAxisSize
         (this (Sample.run
                  (@performAll Reference.collaborators
                     [OpUpdateTreeLayout; OpResizeMainAxis 7; OpDeferLayout;
                      OpGetAxisMinSize true; OpResizeCrossAxis 0;
                      OpLayoutTree])
                  Sample.row)).
Proof.
  apply (@sizes_nonNegative Reference.collaborators Reference.linesMeasured).
  - exact Reference_measuring.
  - repeat constructor; lia.
  - split.
    + vm_compute. repeat split; discriminate.
    + constructor.
Defined.

(** C9 fails as stated: [resizeMainAxis(-5)] leaves the row with a
    main-axis size of -5. *)
Lemma sizes_nonNegative_counterexample :
  mainAxisSize
    (this (Sample.run (@resizeMainAxis Reference.collaborators (-5))
                      Sample.row))
  = -5 /\
  ~ 0 <= mainAxisSize
           (this (Sample.run (@resizeMainAxis Reference.collaborators (-5))
                             Sample.row)).
Proof. vm_compute. split; [reflexivity | intros H; apply H; reflexivity]. Qed.

(** The row answers 15, its main-axis minimum, for the horizontal axis and
    4 for the vertical one, once laid out. *)
Lemma getAxisMinSize_dispatch_witness :
  result (@getAxisMinSize Reference.collaborators true)
         (Sample.run (@updateTreeLayout Reference.collaborators) Sample.row)
  = 15 /\
  result (@getAxisMinSize Reference.collaborators false)
         (Sample.run (@updateTreeLayout Reference.collaborators) Sample.row)
  = 4.
Proof.
  set (r := Sample.run (@updateTreeLayout Reference.collaborators) Sample.row).
  assert (Ht : true = _horizontal (this r)) by (vm_compute; reflexivity).
  assert (Hf : false <> _horizontal (this r)) by (vm_compute; discriminate).
  split.
  - rewrite (proj2 (proj1 (@getAxisMinSize_dispatch Reference.collaborators
                             true r) Ht)).
    vm_compute. reflexivity.
  - rewrite (proj2 (proj2 (@getAxisMinSize_dispatch Reference.collaborators
                             false r) Hf)).
    vm_compute. reflexivity.
Defined.

(** * Further results *)

(** ** The two axes are independent *)

Lemma mainAxisSize_set_cross (v : Z) (l : FlexLayout) :
  crossAxisSize (mainAxisSize_set v l) = crossAxisSize l.
Proof.
  pose proof (mainAxisSize_set_ownButMain v l) as H.
  unfold ownButMain in H. congruence.
Qed.

Lemma crossAxisSize_set_main (v : Z) (l : FlexLayout) :
  mainAxisSize (crossAxisSize_set v l) = mainAxisSize l.
Proof.
  pose proof (crossAxisSize_set_ownButCross v l) as H.
  unfold ownButCross in H. congruence.
Qed.

Lemma mainAxisSize_set_settings (v : Z) (l : FlexLayout) :
  settings (mainAxisSize_set v l) = settings l.
Proof.
  pose proof (mainAxisSize_set_ownButMain v l) as H.
  unfold ownButMain in H. unfold settings. congruence.
Qed.

Lemma crossAxisSize_set_settings (v : Z) (l : FlexLayout) :
  settings (crossAxisSize_set v l) = settings l.
Proof.
  pose proof (crossAxisSize_set_ownButCross v l) as H.
  unfold ownButCross in H. unfold settings. congruence.
Qed.

Lemma mainAxisSize_set_keeps (v : Z) (l : FlexLayout) :
  crossAxisSize (mainAxisSize_set v l) = crossAxisSize l /\
  _resizingMainAxis (mainAxisSize_set v l) = _resizingMainAxis l /\
  _resizingCrossAxis (mainAxisSize_set v l) = _resizingCrossAxis l.
Proof.
  split; [apply mainAxisSize_set_cross | split; reflexivity].
Qed.

Lemma crossAxisSize_set_keeps (v : Z) (l : FlexLayout) :
  mainAxisSize (crossAxisSize_set v l) = mainAxisSize l /\
  _resizingCrossAxis (crossAxisSize_set v l) = _resizingCrossAxis l /\
  _resizingMainAxis (crossAxisSize_set v l) = _resizingMainAxis l.
Proof.
  split; [apply crossAxisSize_set_main | split; reflexivity].
Qed.

(** X9.  The size setters address different physical axes whatever the
    orientation: writing one size never changes the other size, the bases,
    the orientation, the flags, the children or the lines; what is written
    is read back; a second write wins; writes to the two axes commute. *)
Theorem axis_setters_independent (v w : Z) (l : FlexLayout) :
  mainAxisSize (mainAxisSize_set v l) = v /\
  crossAxisSize (crossAxisSize_set v l) = v /\
  crossAxisSize (mainAxisSize_set v l) = crossAxisSize l /\
  mainAxisSize (crossAxisSize_set v l) = mainAxisSize l /\
  settings (mainAxisSize_set v l) = settings l /\
  settings (crossAxisSize_set v l) = settings l /\
  Getters.items (mainAxisSize_set v l) = Getters.items l /\
  Getters.items (crossAxisSize_set v l) = Getters.items l /\
  mainAxisSize_set w (mainAxisSize_set v l) = mainAxisSize_set w l /\
  crossAxisSize_set w (crossAxisSize_set v l) = crossAxisSize_set w l /\
  mainAxisSize_set v (crossAxisSize_set w l) =
    crossAxisSize_set w (mainAxisSize_set v l).
Proof.
  destruct l as [[i wr h rv] ll a b d t].
  destruct h; repeat split; reflexivity.
Qed.

(** ** What a resize shows and leaves *)

Section FramedAxes.

Context {C : Collaborators} (F : Framed C).

Lemma mainPass_settings (l : FlexLayout) :
  settings (mainPass l) = settings l /\
  _resizingMainAxis (mainPass l) = _resizingMainAxis l /\
  _resizingCrossAxis (mainPass l) = _resizingCrossAxis l /\
  crossAxisSize (mainPass l) = crossAxisSize l.
Proof.
  pose proof (mainPass_ownButMain F l) as H.
  unfold ownButMain in H. unfold settings. repeat split; congruence.
Qed.

Lemma crossPass_settings (l : FlexLayout) :
  settings (crossPass l) = settings l /\
  _resizingMainAxis (crossPass l) = _resizingMainAxis l /\
  _resizingCrossAxis (crossPass l) = _resizingCrossAxis l /\
  mainAxisSize (crossPass l) = mainAxisSize l.
Proof.
  pose proof (crossPass_ownButCross F l) as H.
  unfold ownButCross in H. unfold settings. repeat split; congruence.
Qed.

Lemma axes_settings (l : FlexLayout) :
  settings (crossPass (mainPass l)) = settings l /\
  _resizingMainAxis (crossPass (mainPass l)) = _resizingMainAxis l /\
  _resizingCrossAxis (crossPass (mainPass l)) = _resizingCrossAxis l.
Proof.
  destruct (mainPass_settings l) as (H1 & H2 & H3 & _).
  destruct (crossPass_settings (mainPass l)) as (H4 & H5 & H6 & _).
  repeat split; congruence.
Qed.

(** Main-axis layout of an eligible container ends on the content size that
    line layout reported. *)
Lemma mainPass_fits (l : FlexLayout) :
  _resizingMainAxis l = false -> isMainAxisFitToContents l = true ->
  mainAxisSize (mainPass l) = mainAxisContentSize (_lineLayouter (layoutLines l)).
Proof.
  intros Hr Hf. unfold mainPass, fitMain.
  pose proof (layoutLines_own C F l) as Ho.
  assert (Hr' : _resizingMainAxis (layoutLines l) = false)
    by (unfold own in Ho; congruence).
  assert (Hf' : isMainAxisFitToContents (layoutLines l) = true)
    by (unfold isMainAxisFitToContents, _hasFixedMainAxisBasis in *;
        unfold own in Ho; congruence).
  rewrite Hr', Hf'. cbn [negb]. apply mainAxisSize_set_get.
Qed.

(** Cross-axis layout of an eligible container ends on the total that the
    aligner's [init] reported. *)
Lemma crossPass_fits (l : FlexLayout) :
  _resizingCrossAxis l = false -> isCrossAxisFitToContents l = true ->
  crossAxisSize (crossPass l) = totalCrossAxisSize (fst (alignerInit l)).
Proof.
  intros Hr Hf. unfold crossPass, crossFitted, fitCross.
  pose proof (crossMeasured_own F l) as Ho.
  assert (Hr' : _resizingCrossAxis (crossMeasured l) = false)
    by (unfold own in Ho; congruence).
  assert (Hf' : isCrossAxisFitToContents (crossMeasured l) = true)
    by (unfold isCrossAxisFitToContents, _hasFixedCrossAxisBasis in *;
        unfold own in Ho; congruence).
  rewrite Hr', Hf'. cbn [negb].
  pose proof (alignerAlign_own C F (fst (alignerInit l))
                (crossAxisSize_set (_totalCrossAxisSize (crossMeasured l))
                                   (crossMeasured l))) as Ha.
  unfold own in Ha.
  assert (Hc : crossAxisSize
                 (alignerAlign (fst (alignerInit l))
                    (crossAxisSize_set (_totalCrossAxisSize (crossMeasured l))
                                       (crossMeasured l)))
               = _totalCrossAxisSize (crossMeasured l))
    by (rewrite <- (crossAxisSize_set_get (_totalCrossAxisSize (crossMeasured l))
                                          (crossMeasured l)) at 2; congruence).
  rewrite Hc. reflexivity.
Qed.

End FramedAxes.

(** X1.  A resize with a new size hands the request to the collaborators:
    [resizeMainAxis] invokes line layout on an object whose main-axis size
    is already the requested one and whose [resizingMainAxis] is raised,
    with the cross-axis size untouched; [resizeCrossAxis] invokes the
    aligner's [init] on an object whose cross-axis size is the requested one
    and whose [resizingCrossAxis] is raised, with the main-axis size
    untouched. *)
Theorem resize_request_visible {C : Collaborators} (size : Z) (r : Run) :
  (mainAxisSize (this r) <> size ->
   exists l1 rest,
     log (exec (resizeMainAxis size) r) =
       log r ++ (CallLayoutLines, l1) :: rest /\
     mainAxisSize l1 = size /\ resizingMainAxis l1 = true /\
     crossAxisSize l1 = crossAxisSize (this r) /\
     resizingCrossAxis l1 = resizingCrossAxis (this r)) /\
  (crossAxisSize (this r) <> size ->
   exists l1 rest,
     log (exec (resizeCrossAxis size) r) =
       log r ++ (CallAlignerInit, l1) :: rest /\
     crossAxisSize l1 = size /\ resizingCrossAxis l1 = true /\
     mainAxisSize l1 = mainAxisSize (this r) /\
     resizingMainAxis l1 = resizingMainAxis (this r)).
Proof.
  split; intros H.
  - rewrite exec_resizeMainAxis. cbv zeta.
    change (mainAxisSize (with_resizingMainAxis true (this r)))
      with (mainAxisSize (this r)).
    destruct (Z.eqb_spec (mainAxisSize (this r)) size); [contradiction|].
    eexists _, _. cbn [log]. unfold axesLog at 1.
    split; [reflexivity|].
    split; [apply mainAxisSize_set_get|].
    destruct (mainAxisSize_set_keeps size (with_resizingMainAxis true (this r)))
      as (Hc & Hf1 & Hf2).
    repeat split; assumption.
  - rewrite exec_resizeCrossAxis. cbv zeta.
    change (crossAxisSize (with_resizingCrossAxis true (this r)))
      with (crossAxisSize (this r)).
    destruct (Z.eqb_spec (crossAxisSize (this r)) size); [contradiction|].
    eexists _, _. cbn [log]. unfold crossLog at 1.
    split; [reflexivity|].
    split; [apply crossAxisSize_set_get|].
    destruct (crossAxisSize_set_keeps size (with_resizingCrossAxis true (this r)))
      as (Hc & Hf1 & Hf2).
    repeat split; assumption.
Qed.

Lemma resizeMainAxis_leaves {C : Collaborators} (F : Framed C)
      (size : Z) (r : Run) :
  mainAxisSize (this (exec (resizeMainAxis size) r)) = size /\
  _resizingMainAxis (this (exec (resizeMainAxis size) r)) = false /\
  settings (this (exec (resizeMainAxis size) r)) = settings (this r).
Proof.
  split; [apply (resizeMainAxis_size F)|].
  rewrite exec_resizeMainAxis. cbv zeta.
  destruct (_ =? size); cbn [this]; [split; reflexivity|].
  set (l1 := mainAxisSize_set size (with_resizingMainAxis true (this r))).
  destruct (axes_settings F l1) as (Hs & _ & _).
  split; [reflexivity|].
  change (settings (crossPass (mainPass l1)) =
          settings (with_resizingMainAxis true (this r))).
  rewrite Hs. unfold l1, settings.
  pose proof (mainAxisSize_set_ownButMain size
                (with_resizingMainAxis true (this r))) as Hk.
  unfold ownButMain in Hk. congruence.
Qed.

(** X2.  With collaborators that leave the container's own part alone, a
    resize ends on the requested size with its flag lowered, whether the
    size was new or not and whether or not the axis would otherwise fit its
    contents; it changes neither the other flag nor orientation, wrap or
    bases, and [resizeCrossAxis] never changes the main-axis size. *)
Theorem resize_postcondition {C : Collaborators} (size : Z) (r : Run) :
  Framed C ->
  (mainAxisSize (this (exec (resizeMainAxis size) r)) = size /\
   resizingMainAxis (this (exec (resizeMainAxis size) r)) = false /\
   resizingCrossAxis (this (exec (resizeMainAxis size) r)) =
     resizingCrossAxis (this r) /\
   settings (this (exec (resizeMainAxis size) r)) = settings (this r)) /\
  (crossAxisSize (this (exec (resizeCrossAxis size) r)) = size /\
   mainAxisSize (this (exec (resizeCrossAxis size) r)) =
     mainAxisSize (this r) /\
   resizingCrossAxis (this (exec (resizeCrossAxis size) r)) = false /\
   resizingMainAxis (this (exec (resizeCrossAxis size) r)) =
     resizingMainAxis (this r) /\
   settings (this (exec (resizeCrossAxis size) r)) = settings (this r)).
Proof.
  intros F. split.
  - split; [apply (resizeMainAxis_size F)|].
    rewrite exec_resizeMainAxis. cbv zeta.
    destruct (_ =? size); cbn [this]; [repeat split|].
    set (l1 := mainAxisSize_set size (with_resizingMainAxis true (this r))).
    destruct (axes_settings F l1) as (Hs & _ & Hc).
    pose proof (mainAxisSize_set_settings size
                  (with_resizingMainAxis true (this r))) as Hs1.
    split; [reflexivity|]. split.
    + change (_resizingCrossAxis (crossPass (mainPass l1)) =
              _resizingCrossAxis l1). exact Hc.
    + change (settings (crossPass (mainPass l1)) =
              settings (with_resizingMainAxis true (this r))).
      rewrite Hs. exact Hs1.
  - split; [apply (resizeCrossAxis_size F)|].
    rewrite exec_resizeCrossAxis. cbv zeta.
    destruct (_ =? size); cbn [this]; [repeat split|].
    set (l1 := crossAxisSize_set size (with_resizingCrossAxis true (this r))).
    destruct (crossPass_settings F l1) as (Hs & Hm & _ & Hsz).
    pose proof (crossAxisSize_set_settings size
                  (with_resizingCrossAxis true (this r))) as Hs1.
    pose proof (crossAxisSize_set_main size
                  (with_resizingCrossAxis true (this r))) as Hm1.
    split.
    + change (mainAxisSize (crossPass l1) =
              mainAxisSize (with_resizingCrossAxis true (this r))).
      rewrite Hsz. exact Hm1.
    + split; [reflexivity|]. split.
      * change (_resizingMainAxis (crossPass l1) = _resizingMainAxis l1).
        exact Hm.
      * change (settings (crossPass l1) =
                settings (with_resizingCrossAxis true (this r))).
        rewrite Hs. exact Hs1.
Qed.

(** ** What a layout resolves to *)

(** X3.  With collaborators that leave the container's own part alone,
    [updateTreeLayout] resolves the sizes from this pass alone, whatever
    sizes and flags it started with.  A container that does not wrap and has
    no main-axis basis gets the content size line layout reported; a
    wrapping container gets its main-axis basis, be it zero; a container
    without cross-axis basis gets the total the aligner's [init] reported.
    It ends with both resizing flags lowered. *)
Theorem updateTreeLayout_resolves {C : Collaborators} (r : Run) :
  Framed C ->
  exists l1 l2 l3,
    log (exec updateTreeLayout r) =
      log r ++ [(CallLayoutLines, l1); (CallAlignerInit, l2);
                (CallAlignerAlign, l3)] /\
    (isWrapping (this r) = false -> _getMainAxisBasis (this r) = 0 ->
     mainAxisSize (this (exec updateTreeLayout r)) =
       mainAxisContentSize (_lineLayouter (layoutLines l1))) /\
    (isWrapping (this r) = true ->
     mainAxisSize (this (exec updateTreeLayout r)) =
       _getMainAxisBasis (this r)) /\
    (_getCrossAxisBasis (this r) = 0 ->
     crossAxisSize (this (exec updateTreeLayout r)) =
       totalCrossAxisSize (fst (alignerInit l2))) /\
    resting (this (exec updateTreeLayout r)).
Proof.
  intros F. rewrite exec_updateTreeLayout. cbv zeta. cbn [log this].
  set (l0 := with_deferLayout false (this r)).
  set (l1 := initialSizes l0).
  exists l1, (mainPass l1), (crossFitted (mainPass l1)).
  destruct (initialSizes_config l0) as (_ & Hw & Hbm & Hbc & Hrm & Hrc & _).
  fold l1 in Hw, Hbm, Hbc, Hrm, Hrc.
  destruct (mainPass_settings F l1) as (Hs1 & Hm1 & Hc1 & _).
  destruct (crossPass_settings F (mainPass l1)) as (_ & Hm2 & Hc2 & Hsz).
  split; [reflexivity|]. split; [|split; [|split]].
  - intros Hnw Hb. rewrite Hsz. apply (mainPass_fits F); [exact Hrm|].
    unfold isMainAxisFitToContents, _hasFixedMainAxisBasis.
    rewrite Hw, Hbm.
    change (isWrapping l0) with (isWrapping (this r)).
    change (_getMainAxisBasis l0) with (_getMainAxisBasis (this r)).
    rewrite Hnw, Hb. reflexivity.
  - intros Hwr. rewrite Hsz.
    assert (Hnf : isMainAxisFitToContents l1 = false).
    { unfold isMainAxisFitToContents. rewrite Hw.
      change (isWrapping l0) with (isWrapping (this r)).
      rewrite Hwr. reflexivity. }
    pose proof (mainPass_own F l1 (or_intror Hnf)) as Ho.
    unfold own in Ho.
    transitivity (mainAxisSize l1); [congruence|].
    exact (initialSizes_main l0).
  - intros Hb. apply (crossPass_fits F).
    + congruence.
    + unfold isCrossAxisFitToContents, _hasFixedCrossAxisBasis.
      unfold settings in Hs1.
      assert (Hb' : _getCrossAxisBasis (mainPass l1) = 0).
      { transitivity (_getCrossAxisBasis l1); [congruence|].
        rewrite Hbc. exact Hb. }
      rewrite Hb'. reflexivity.
  - split; congruence.
Qed.

(** X4.  With collaborators that leave the container's own part alone, a
    size that [resizeMainAxis] imposed on a flex item survives a following
    [layoutTree] only if the main axis is not fit to contents (it wraps or
    has a basis).  On an item whose main axis is fit to contents the flag is
    down again, so [layoutTree] hands the imposed size to line layout and
    then replaces it with the content size line layout reports. *)
Theorem resize_then_layoutTree {C : Collaborators} (size : Z) (r : Run) :
  Framed C ->
  flexParent (item (this (exec (resizeMainAxis size) r))) <> None ->
  exists l1 rest,
    log (exec (resizeMainAxis size ;; layoutTree) r) =
      log (exec (resizeMainAxis size) r) ++ (CallLayoutLines, l1) :: rest /\
    mainAxisSize l1 = size /\
    (isMainAxisFitToContents (this r) = false ->
     mainAxisSize (this (exec (resizeMainAxis size ;; layoutTree) r)) = size) /\
    (isMainAxisFitToContents (this r) = true ->
     mainAxisSize (this (exec (resizeMainAxis size ;; layoutTree) r)) =
       mainAxisContentSize (_lineLayouter (layoutLines l1))).
Proof.
  intros F Hp. rewrite exec_bind.
  destruct (resizeMainAxis_leaves F size r) as (Hsz & Hfl & Hst).
  set (r1 := exec (resizeMainAxis size) r) in *.
  rewrite exec_layoutTree. cbv zeta.
  destruct (flexParent (item (this r1))); [|contradiction].
  set (l1 := with_deferLayout false (this r1)).
  exists l1. eexists. cbn [log this]. unfold axesLog at 1.
  split; [reflexivity|]. split; [exact Hsz|].
  destruct (crossPass_settings F (mainPass l1)) as (_ & _ & _ & Hm).
  rewrite (proj1 (finalize_sizes F _)), Hm.
  assert (Hfit : isMainAxisFitToContents l1 =
                 isMainAxisFitToContents (this r)).
  { unfold isMainAxisFitToContents, _hasFixedMainAxisBasis.
    change (isWrapping l1) with (isWrapping (this r1)).
    change (_getMainAxisBasis l1) with (_getMainAxisBasis (this r1)).
    unfold settings in Hst. congruence. }
  split; intros H.
  - assert (Hnf : isMainAxisFitToContents l1 = false) by congruence.
    pose proof (mainPass_own F l1 (or_intror Hnf)) as Ho. unfold own in Ho.
    transitivity (mainAxisSize l1); [congruence | exact Hsz].
  - apply (mainPass_fits F); [exact Hfl | congruence].
Qed.

(** ** Deferral and minimum sizes *)

(** X5.  On a container that is not deferred, [getAxisMinSize] is a plain
    read: it makes no collaborator call, changes nothing, and returns the
    minimum the line layouter holds for the queried axis. *)
Theorem getAxisMinSize_reads {C : Collaborators} (horizontal : bool)
        (r : Run) :
  isLayoutDeferred (this r) = false ->
  exec (getAxisMinSize horizontal) r = r /\
  result (getAxisMinSize horizontal) r =
    (if Bool.eqb (_horizontal (this r)) horizontal
     then mainAxisMinSize (_lineLayouter (this r))
     else crossAxisMinSize (_lineLayouter (this r))).
Proof.
  intros H. split.
  - rewrite exec_getAxisMinSize, H. reflexivity.
  - unfold getAxisMinSize. run.
    destruct (Bool.eqb (_horizontal (this r)) horizontal).
    + rewrite result_getMainAxisMinSize, exec_getMainAxisMinSize, H.
      reflexivity.
    + rewrite result_getCrossAxisMinSize, exec_getCrossAxisMinSize, H.
      reflexivity.
Qed.

Lemma calls_app (l : FlexLayout) (lg more : list Event) :
  calls (mkRun l (lg ++ more)) = map fst lg ++ map fst more.
Proof. unfold calls. cbn [log]. apply map_app. Qed.

Lemma calls_updateTreeLayout {C : Collaborators} (r : Run) :
  calls (exec updateTreeLayout r) =
  calls r ++ [CallLayoutLines; CallAlignerInit; CallAlignerAlign].
Proof. rewrite exec_updateTreeLayout. cbv zeta. apply calls_app. Qed.

(** X6.  [deferLayout] raises the deferred flag, then calls the item's
    [resetNonFlexLayout] and [mustUpdateDeferred], in this order, and lays
    nothing out: lines, resizing flags, orientation and wrap are as before.
    A minimum-size query that follows it therefore runs one full layout:
    [deferLayout] followed by [getAxisMinSize] does what [deferLayout]
    followed by [updateTreeLayout] does. *)
Theorem deferLayout_then_query {C : Collaborators} (horizontal : bool)
        (r : Run) :
  isLayoutDeferred (this (exec deferLayout r)) = true /\
  calls (exec deferLayout r) =
    calls r ++ [CallResetNonFlexLayout; CallMustUpdateDeferred] /\
  Getters._lines (this (exec deferLayout r)) = Getters._lines (this r) /\
  resizingMainAxis (this (exec deferLayout r)) = resizingMainAxis (this r) /\
  resizingCrossAxis (this (exec deferLayout r)) = resizingCrossAxis (this r) /\
  _horizontal (this (exec deferLayout r)) = _horizontal (this r) /\
  isWrapping (this (exec deferLayout r)) = isWrapping (this r) /\
  exec (deferLayout ;; getAxisMinSize horizontal) r =
    exec (deferLayout ;; updateTreeLayout) r /\
  calls (exec (deferLayout ;; getAxisMinSize horizontal) r) =
    calls r ++ [CallResetNonFlexLayout; CallMustUpdateDeferred;
                CallLayoutLines; CallAlignerInit; CallAlignerAlign].
Proof.
  assert (Hd : isLayoutDeferred (this (exec deferLayout r)) = true)
    by (rewrite exec_deferLayout; reflexivity).
  assert (Hc : calls (exec deferLayout r) =
               calls r ++ [CallResetNonFlexLayout; CallMustUpdateDeferred])
    by (rewrite exec_deferLayout; cbv zeta; unfold calls; cbn [log];
        rewrite map_app; reflexivity).
  split; [exact Hd|]. split; [exact Hc|].
  split; [rewrite exec_deferLayout; reflexivity|].
  split; [rewrite exec_deferLayout; reflexivity|].
  split; [rewrite exec_deferLayout; reflexivity|].
  split; [rewrite exec_deferLayout; reflexivity|].
  split; [rewrite exec_deferLayout; reflexivity|].
  assert (He : exec (deferLayout ;; getAxisMinSize horizontal) r =
               exec (deferLayout ;; updateTreeLayout) r).
  { rewrite !exec_bind. rewrite exec_getAxisMinSize, Hd. reflexivity. }
  split; [exact He|].
  rewrite He, exec_bind, calls_updateTreeLayout, Hc, <- app_assoc.
  reflexivity.
Qed.

(** ** Sequences of public operations *)

Lemma Protocol_perform {C : Collaborators} (o : Op) (r : Run) :
  Protocol (calls r) -> Protocol (calls (exec (perform o) r)).
Proof.
  intros H. destruct o as [ | | size | size | horizontal | ]; unfold perform.
  - rewrite exec_layoutTree. cbv zeta. rewrite calls_app, map_app.
    apply (Protocol_tree _ H).
  - rewrite calls_updateTreeLayout. apply (Protocol_axes _ H).
  - rewrite exec_resizeMainAxis. cbv zeta.
    destruct (_ =? size); [exact H|].
    rewrite calls_app. apply (Protocol_axes _ H).
  - rewrite exec_resizeCrossAxis. cbv zeta.
    destruct (_ =? size); [exact H|].
    rewrite calls_app. apply (Protocol_cross _ H).
  - rewrite exec_bind, exec_skip, exec_getAxisMinSize.
    destruct (isLayoutDeferred (this r)); [|exact H].
    rewrite calls_updateTreeLayout. apply (Protocol_axes _ H).
  - rewrite exec_deferLayout. cbv zeta. rewrite calls_app.
    apply (Protocol_defer _ H).
Qed.

Lemma rightAfter_app (p c : Call) (cs more : list Call) :
  forall prev,
    rightAfter p c prev (cs ++ more) =
    rightAfter p c prev cs && rightAfter p c (lastCall prev cs) more.
Proof.
  induction cs as [|x cs IH]; intros prev; cbn [app rightAfter lastCall].
  - reflexivity.
  - rewrite IH, andb_assoc. reflexivity.
Qed.

Lemma Protocol_rightAfter (p c : Call) (cs : list Call) :
  (p, c) = (CallAlignerInit, CallAlignerAlign) \/
  (p, c) = (CallAlignerAlign, CallFinalize) \/
  (p, c) = (CallResetNonFlexLayout, CallMustUpdateDeferred) ->
  Protocol cs -> rightAfter p c None cs = true.
Proof.
  intros Hpc H.
  induction H as [|cs H IH|cs H IH|cs H IH|cs H IH];
    [reflexivity|..];
    rewrite rightAfter_app, IH;
    destruct Hpc as [E | [E | E]]; injection E as -> ->;
    destruct (lastCall None cs) as [[]|]; reflexivity.
Qed.

Lemma Protocol_performAll {C : Collaborators} (os : list Op) :
  forall r, Protocol (calls r) -> Protocol (calls (exec (performAll os) r)).
Proof.
  induction os as [|o os IH]; intros r H.
  - exact H.
  - cbn [performAll]. rewrite exec_bind. apply IH, Protocol_perform, H.
Qed.

(** X7.  Whatever public operations are run on a container, in whatever
    order and with whatever collaborators, the collaborator calls come in
    whole groups: line layout, [init], [align]; or [init], [align]; or line
    layout, [init], [align], [finalize]; or [resetNonFlexLayout],
    [mustUpdateDeferred].  So [align] is never called without [init] right
    before it, [finalize] only right after an [align], and
    [mustUpdateDeferred] only right after [resetNonFlexLayout]. *)
Theorem public_operations_protocol {C : Collaborators} (os : list Op)
        (l : FlexLayout) :
  Protocol (calls (exec (performAll os) (start l))) /\
  rightAfter CallAlignerInit CallAlignerAlign None
             (calls (exec (performAll os) (start l))) = true /\
  rightAfter CallAlignerAlign CallFinalize None
             (calls (exec (performAll os) (start l))) = true /\
  rightAfter CallResetNonFlexLayout CallMustUpdateDeferred None
             (calls (exec (performAll os) (start l))) = true.
Proof.
  assert (H : Protocol (calls (exec (performAll os) (start l))))
    by (apply Protocol_performAll; constructor).
  split; [exact H|].
  split; [|split]; apply Protocol_rightAfter; auto.
Qed.

(** A resize ends with its flag lowered, and under framed collaborators
    with the other flag as it was. *)
Lemma resize_rests {C : Collaborators} (F : Framed C) (size : Z) (r : Run) :
  _resizingMainAxis (this (exec (resizeMainAxis size) r)) = false /\
  (resting (this r) ->
   _resizingCrossAxis (this (exec (resizeMainAxis size) r)) = false) /\
  (resting (this r) ->
   _resizingMainAxis (this (exec (resizeCrossAxis size) r)) = false) /\
  _resizingCrossAxis (this (exec (resizeCrossAxis size) r)) = false.
Proof.
  rewrite exec_resizeMainAxis, exec_resizeCrossAxis. cbv zeta.
  split; [destruct (_ =? size); reflexivity|].
  split; [|split; [|destruct (_ =? size); reflexivity]]; intros [Hm Hc].
  - destruct (_ =? size); cbn [this]; [exact Hc|].
    set (l1 := mainAxisSize_set size (with_resizingMainAxis true (this r))).
    destruct (axes_settings F l1) as (_ & _ & H).
    change (_resizingCrossAxis (crossPass (mainPass l1)) = false).
    rewrite H. exact Hc.
  - destruct (_ =? size); cbn [this]; [exact Hm|].
    set (l1 := crossAxisSize_set size (with_resizingCrossAxis true (this r))).
    destruct (crossPass_settings F l1) as (_ & H & _).
    change (_resizingMainAxis (crossPass l1) = false).
    rewrite H. exact Hm.
Qed.

Section RestingRuns.

Context {C : Collaborators} (F : Framed C).

Lemma resting_axes (l : FlexLayout) :
  resting l -> resting (crossPass (mainPass l)).
Proof.
  intros [Hm Hc]. destruct (axes_settings F l) as (_ & Hm' & Hc').
  split; congruence.
Qed.

Lemma resting_updateTreeLayout (r : Run) :
  resting (this (exec updateTreeLayout r)).
Proof.
  rewrite exec_updateTreeLayout. cbv zeta. cbn [this].
  apply resting_axes.
  destruct (initialSizes_config (with_deferLayout false (this r)))
    as (_ & _ & _ & _ & Hm & Hc & _).
  split; assumption.
Qed.

Lemma resting_perform (o : Op) (r : Run) :
  resting (this r) -> resting (this (exec (perform o) r)).
Proof.
  intros H. destruct o as [ | | size | size | horizontal | ]; unfold perform.
  - rewrite exec_layoutTree. cbv zeta. cbn [this].
    pose proof (finalize_own C F) as Hf. unfold own in Hf.
    assert (Ha : forall l, resting l ->
                           resting (finalize (crossPass (mainPass l)))).
    { intros l Hl. destruct (resting_axes l Hl) as [Hm Hc].
      specialize (Hf (crossPass (mainPass l))). split; congruence. }
    apply Ha. destruct (flexParent (item (this r))); [exact H|].
    destruct (initialSizes_config (with_deferLayout false (this r)))
      as (_ & _ & _ & _ & Hm & Hc & _).
    split; assumption.
  - apply resting_updateTreeLayout.
  - destruct (resize_rests F size r) as (Hm & Hc & _).
    exact (conj Hm (Hc H)).
  - destruct (resize_rests F size r) as (_ & _ & Hm & Hc).
    exact (conj (Hm H) Hc).
  - rewrite exec_bind, exec_skip, exec_getAxisMinSize.
    destruct (isLayoutDeferred (this r));
      [apply resting_updateTreeLayout | exact H].
  - rewrite exec_deferLayout. exact H.
Qed.

Lemma resting_performAll (os : list Op) :
  forall r, resting (this r) -> resting (this (exec (performAll os) r)).
Proof.
  induction os as [|o os IH]; intros r H.
  - exact H.
  - cbn [performAll]. rewrite exec_bind. apply IH, resting_perform, H.
Qed.

End RestingRuns.

(** X8.  With collaborators that leave the container's own part alone, the
    resizing flags are only ever raised inside a resize: a container with
    both flags lowered has both flags lowered after any sequence of public
    operations, and [updateTreeLayout] lowers them whatever they were. *)
Theorem resizing_is_transient {C : Collaborators} (os : list Op) (r : Run) :
  Framed C ->
  resting (this (exec updateTreeLayout r)) /\
  (resting (this r) -> resting (this (exec (performAll os) r))).
Proof.
  intros F. split.
  - apply (resting_updateTreeLayout F).
  - apply (resting_performAll F).
Qed.

(** ** Padding *)

(** X10.  The main-axis and cross-axis paddings are the horizontal and
    vertical paddings of the item, in the order the orientation gives: for a
    row the main-axis padding is the horizontal one and the cross-axis
    padding the vertical one, for a column the other way round; either way
    the two pairs are the same two numbers, and the horizontal and vertical
    paddings do not depend on the orientation. *)
Theorem padding_follows_orientation
        (getTotalPadding : FlexTarget -> bool -> Z) (l : FlexLayout) :
  (_horizontal l = true ->
   _getMainAxisPadding getTotalPadding l =
     _getHorizontalPadding getTotalPadding l /\
   _getCrossAxisPadding getTotalPadding l =
     _getVerticalPadding getTotalPadding l) /\
  (_horizontal l = false ->
   _getMainAxisPadding getTotalPadding l =
     _getVerticalPadding getTotalPadding l /\
   _getCrossAxisPadding getTotalPadding l =
     _getHorizontalPadding getTotalPadding l) /\
  _getMainAxisPadding getTotalPadding l
  + _getCrossAxisPadding getTotalPadding l =
  _getHorizontalPadding getTotalPadding l
  + _getVerticalPadding getTotalPadding l.
Proof.
  unfold _getMainAxisPadding, _getCrossAxisPadding, _getHorizontalPadding,
    _getVerticalPadding.
  destruct (_horizontal l); cbn [negb];
    (split; [|split]); try (intros E; try discriminate E; split; reflexivity).
  - reflexivity.
  - apply Z.add_comm.
Qed.

(** ** The further results on the sample containers *)

(** The laid-out wrapping row, resized to 5 along and to 9 across. *)
Lemma resize_request_visible_witness :
  (exists l1 rest,
     log (exec (@resizeMainAxis Reference.collaborators 5)
               (start Sample.laid)) = (CallLayoutLines, l1) :: rest /\
     mainAxisSize l1 = 5 /\ resizingMainAxis l1 = true) /\
  (exists l1 rest,
     log (exec (@resizeCrossAxis Reference.collaborators 9)
               (start Sample.laid)) = (CallAlignerInit, l1) :: rest /\
     crossAxisSize l1 = 9 /\ resizingCrossAxis l1 = true).
Proof.
  destruct (@resize_request_visible Reference.collaborators 5
              (start Sample.laid)) as [Hm _].
  destruct (@resize_request_visible Reference.collaborators 9
              (start Sample.laid)) as [_ Hc].
  split.
  - destruct Hm as (l1 & rest & Hlog & Hs & Hf & _);
      [vm_compute; discriminate|].
    exists l1, rest. repeat split; assumption.
  - destruct Hc as (l1 & rest & Hlog & Hs & Hf & _);
      [vm_compute; discriminate|].
    exists l1, rest. repeat split; assumption.
Defined.

(** The row, which would fit its 15 units of content, resized to 7 along;
    the laid-out wrapping row resized to 9 across keeps its 10 along. *)
Lemma resize_postcondition_witness :
  mainAxisSize
    (this (exec (@resizeMainAxis Reference.collaborators 7)
                (start Sample.row))) = 7 /\
  crossAxisSize
    (this (exec (@resizeCrossAxis Reference.collaborators 9)
                (start Sample.laid))) = 9 /\
  mainAxisSize
    (this (exec (@resizeCrossAxis Reference.collaborators 9)
                (start Sample.laid))) = 10.
Proof.
  destruct (@resize_postcondition Reference.collaborators 7
              (start Sample.row) Reference_framed) as [(Hm & _) _].
  destruct (@resize_postcondition Reference.collaborators 9
              (start Sample.laid) Reference_framed) as [_ (Hc & Hk & _)].
  split; [exact Hm|]. split; [exact Hc|].
  rewrite Hk. vm_compute. reflexivity.
Defined.

(** The row resolves to the content and total of its pass; the wrapping
    row without basis resolves to 0 along. *)
Lemma updateTreeLayout_resolves_witness :
  (exists l1 l2,
     mainAxisSize
       (this (Sample.run (@updateTreeLayout Reference.collaborators)
                         Sample.row))
     = mainAxisContentSize (_lineLayouter (Reference.layoutLines l1)) /\
     crossAxisSize
       (this (Sample.run (@updateTreeLayout Reference.collaborators)
                         Sample.row))
     = totalCrossAxisSize (fst (Reference.alignerInit l2))) /\
  mainAxisSize
    (this (Sample.run (@updateTreeLayout Reference.collaborators)
                      Sample2.wrappedAuto)) = 0.
Proof.
  split.
  - destruct (@updateTreeLayout_resolves Reference.collaborators
                (start Sample.row) Reference_framed)
      as (l1 & l2 & l3 & _ & Hm & _ & Hc & _).
    exists l1, l2. split.
    + apply Hm; vm_compute; reflexivity.
    + apply Hc; vm_compute; reflexivity.
  - destruct (@updateTreeLayout_resolves Reference.collaborators
                (start Sample2.wrappedAuto) Reference_framed)
      as (l1 & l2 & l3 & _ & _ & Hw & _).
    unfold Sample.run. rewrite Hw; vm_compute; reflexivity.
Defined.

(** The shrunk item, of basis 100, and the wrapping item keep the 80 their
    parent imposes; the item without basis falls back to the content of its
    pass. *)
Lemma resize_then_layoutTree_witness :
  mainAxisSize
    (this (exec (@resizeMainAxis Reference.collaborators 80 ;;
                 @layoutTree Reference.collaborators)
                (start Sample2.wrappedItem))) = 80 /\
  (exists l1,
     mainAxisSize l1 = 80 /\
     mainAxisSize
       (this (exec (@resizeMainAxis Reference.collaborators 80 ;;
                    @layoutTree Reference.collaborators)
                   (start Sample2.autoItem)))
     = mainAxisContentSize (_lineLayouter (Reference.layoutLines l1))).
Proof.
  split.
  - destruct (@resize_then_layoutTree Reference.collaborators 80
                (start Sample2.wrappedItem) Reference_framed)
      as (l1 & rest & _ & _ & Hk & _); [vm_compute; discriminate|].
    apply Hk. vm_compute. reflexivity.
  - destruct (@resize_then_layoutTree Reference.collaborators 80
                (start Sample2.autoItem) Reference_framed)
      as (l1 & rest & _ & Hs & _ & Hf); [vm_compute; discriminate|].
    exists l1. split; [exact Hs|].
    apply Hf. vm_compute. reflexivity.
Defined.

(** The laid-out wrapping row answers its minimum sizes 5 and 6 without a
    call. *)
Lemma getAxisMinSize_reads_witness :
  isLayoutDeferred (this (start Sample.laid)) = false /\
  exec (@getAxisMinSize Reference.collaborators true) (start Sample.laid)
  = start Sample.laid /\
  result (@getAxisMinSize Reference.collaborators true) (start Sample.laid)
  = 5 /\
  result (@getAxisMinSize Reference.collaborators false) (start Sample.laid)
  = 6.
Proof.
  assert (H : isLayoutDeferred (this (start Sample.laid)) = false)
    by (vm_compute; reflexivity).
  split; [exact H|].
  split; [exact (proj1 (@getAxisMinSize_reads Reference.collaborators true
                          (start Sample.laid) H))|].
  split.
  - rewrite (proj2 (@getAxisMinSize_reads Reference.collaborators true
                      (start Sample.laid) H)).
    vm_compute. reflexivity.
  - rewrite (proj2 (@getAxisMinSize_reads Reference.collaborators false
                      (start Sample.laid) H)).
    vm_compute. reflexivity.
Defined.

(** The flags of the row are lowered after all six operations. *)
Lemma resizing_is_transient_witness :
  resting
    (this (Sample.run
             (@performAll Reference.collaborators
                [OpResizeMainAxis 7; OpDeferLayout; OpResizeCrossAxis 2;
                 OpGetAxisMinSize false; OpLayoutTree; OpUpdateTreeLayout])
             Sample.row)).
Proof.
  apply (proj2 (@resizing_is_transient Reference.collaborators _
                  (start Sample.row) Reference_framed)).
  vm_compute. split; reflexivity.
Defined.

(** A row and a column over an item with paddings 3 across and 4 down. *)
Lemma padding_follows_orientation_witness :
  _getMainAxisPadding (fun _ h => if h then 3 else 4) Sample.row = 3 /\
  _getCrossAxisPadding (fun _ h => if h then 3 else 4) Sample.row = 4 /\
  _getMainAxisPadding (fun _ h => if h then 3 else 4) Sample.column = 4 /\
  _getCrossAxisPadding (fun _ h => if h then 3 else 4) Sample.column = 3.
Proof.
  destruct (padding_follows_orientation (fun _ h => if h then 3 else 4)
              Sample.row) as (Hr & _).
  destruct (padding_follows_orientation (fun _ h => if h then 3 else 4)
              Sample.column) as (_ & Hc & _).
  destruct (Hr eq_refl) as [Hr1 Hr2]. destruct (Hc eq_refl) as [Hc1 Hc2].
  rewrite Hr1, Hr2, Hc1, Hc2. vm_compute. repeat split.
Defined.
